(** * django_dramatiq: the [rundramatiq] management command

    A shallow embedding of
    [src/django_dramatiq/management/commands/rundramatiq.py]:
    the ignore matcher [is_ignored_module], the task-module discovery
    [discover_tasks_modules], the argument vector built by [Command.handle]
    and the hand-off to the [dramatiq] executable.

    Python strings are [string], the set [ignored_modules] is a
    [gset string], lists are lists, integers are [Z], and a raised
    exception is the [inl] side of a sum. *)

From Stdlib Require Import ZArith Ascii String DecimalString.
From stdpp Require Import base decidable list strings gmap.

Local Open Scope Z_scope.

(** ** Python string primitives used by the command *)

Module Py.

(** [s.split(".")]: split at every occurrence of the one-character
    separator; the result is never empty, and [[""]] for the empty string. *)
Fixpoint split (sep : ascii) (s : string) : list string :=
  match s with
  | EmptyString => [EmptyString]
  | String c s' =>
      if Ascii.eqb c sep then EmptyString :: split sep s'
      else match split sep s' with
           | [] => [String c EmptyString]
           | h :: t => String c h :: t
           end
  end.

(** [sep.join(parts)]. *)
Fixpoint join (sep : string) (parts : list string) : string :=
  match parts with
  | [] => EmptyString
  | [x] => x
  | x :: rest => x +:+ sep +:+ join sep rest
  end.

(** [parts[:c]] for [0 <= c]. *)
Definition slice_to {A} (c : nat) (parts : list A) : list A := take c parts.

(** [range(a, b)] as the list of its values. *)
Definition range (a b : nat) : list nat := seq a (b - a).

(** [str(n)] for an [int]: decimal digits, with a leading minus sign. *)
Definition str (n : Z) : string := NilZero.string_of_int (Z.to_int n).

(** [[x] * n]: the empty list when [n <= 0]. *)
Definition list_mul {A} (l : list A) (n : Z) : list A :=
  mjoin (replicate (Z.to_nat n) l).

End Py.

(** ** The ignore matcher (lines 176-190) *)

Definition dot : ascii := "."%char.

(** The candidate built at line 186 for the prefix length [c]. *)
Definition part_name (name_parts : list string) (c : nat) : string :=
  Py.join "." (Py.slice_to c name_parts) +:+ ".*".

(** [is_ignored_module], with the closed-over set [ignored_modules] as its
    first argument.  [existsb] stops at the first hit, like the [return True]
    inside the loop. *)
Definition is_ignored_module (ignored_modules : gset string)
    (module_name : string) : bool :=
  if bool_decide (ignored_modules = ∅) then false
  else if bool_decide (module_name ∈ ignored_modules) then true
  else
    let name_parts := Py.split dot module_name in
    existsb (fun c => bool_decide (part_name name_parts c ∈ ignored_modules))
            (Py.range 1 (length name_parts)).


(** ** The world the command runs in *)

(** A module object: its [__name__], and its [__path__] when it has one
    (packages have one, plain modules do not). *)
Record PyModule := {
  __name__ : string;
  __path__ : option (list string);
}.

(** A Django [AppConfig]: [conf.name] and [conf.module]. *)
Record AppConfig := {
  name : string;
  module : PyModule;
}.

(** The exceptions that can leave the command. *)
Inductive exn :=
  | ImportError (module_name : string)
  | AttributeError (attribute : string)
  | OtherError (type_name : string).   (* any other exception, by its type *)

(** Django as the command sees it: [apps.get_app_configs()], the two
    optional settings, and [module_has_submodule]. *)
Record Django := {
  get_app_configs : list AppConfig;
  DRAMATIQ_AUTODISCOVER_MODULES : option (list string);
  DRAMATIQ_IGNORED_MODULES : option (list string);
  module_has_submodule : PyModule → string → bool;
}.

(** The import system: [importlib.import_module] ([None] when the import
    raises), and for [pkgutil.walk_packages] the dotted names, relative to a
    search path, of everything importable below it, in the order the walk
    yields them.  This view has one way to fail, the module that is not
    there; [Raising] below is the import system with every exception. *)
Record Importer := {
  import_module : string → option PyModule;
  walk_names : list string → list string;
}.

(** [pkgutil.walk_packages(path, prefix)]: every name it yields is the
    prefix followed by a name found below the path. *)
Definition walk_packages (imp : Importer) (path : list string)
    (prefix : string) : list string :=
  map (fun n => prefix +:+ n) (walk_names imp path).

(** The lines written to [self.stdout]. *)
Inductive line :=
  | IgnoredLine (module_name : string)     (* " * Ignored tasks module: %r" *)
  | DiscoveredLine (module_name : string)  (* " * Discovered tasks module: %r" *)
  | RunningLine (command_line : string).   (* " * Running dramatiq: ..." *)

(** ** Task-module discovery (lines 162-226) *)

Definition _is_package (m : PyModule) : bool :=
  match __path__ m with Some _ => true | None => false end.

Definition _get_submodules (imp : Importer) (package : PyModule)
    : exn + list string :=
  match __path__ package with
  | None => inl (AttributeError "__path__")
  | Some package_path =>
      let prefix := __name__ package +:+ "." in
      inr (walk_packages imp package_path prefix)
  end.

(** [getattr(settings, NAME, default)]. *)
Definition getattr {A} (setting : option A) (default : A) : A :=
  match setting with Some v => v | None => default end.

(** The first loop (lines 165-173): the list [app_configs] of pairs. *)
Definition pair_app_configs (dj : Django) (task_module_names : list string)
    : list (AppConfig * string) :=
  flat_map
    (fun conf =>
       if String.eqb (name conf) "django_dramatiq" then [(conf, "tasks")]
       else
         map (fun task_module => (conf, task_module))
             (List.filter (fun task_module =>
                             module_has_submodule dj (module conf) task_module)
                          task_module_names))
    (get_app_configs dj).

(** The state the second loop updates: what was written, and the list
    [tasks_modules]. *)
Record state := {
  stdout : list line;
  tasks_modules : list string;
}.

Definition write (l : line) (st : state) : state :=
  {| stdout := stdout st ++ [l]; tasks_modules := tasks_modules st |}.

Definition append_module (m : string) (st : state) : state :=
  {| stdout := stdout st; tasks_modules := tasks_modules st ++ [m] |}.

(** The inner loop (lines 205-210). *)
Definition visit_submodules (ignored_modules : gset string)
    (submodules : list string) (st : state) : state :=
  foldl
    (fun st submodule =>
       if is_ignored_module ignored_modules submodule
       then write (IgnoredLine submodule) st
       else append_module submodule (write (DiscoveredLine submodule) st))
    st submodules.

(** A raised exception, with what had been written before it. *)
Definition failure : Type := list line * exn.

(** One turn of the outer loop (lines 193-210). *)
Definition visit_candidate (imp : Importer) (ignored_modules : gset string)
    (st : state) (cand : AppConfig * string) : failure + state :=
  let '(conf, task_module) := cand in
  let module := name conf +:+ "." +:+ task_module in
  if is_ignored_module ignored_modules module
  then inr (write (IgnoredLine module) st)
  else
    match import_module imp module with
    | None => inl (stdout st, ImportError module)
    | Some imported_module =>
        if negb (_is_package imported_module)
        then inr (append_module module (write (DiscoveredLine module) st))
        else
          match _get_submodules imp imported_module with
          | inl e => inl (stdout st, e)
          | inr submodules =>
              inr (visit_submodules ignored_modules submodules st)
          end
    end.

(** The outer loop (line 192); an exception ends it. *)
Fixpoint visit_candidates (imp : Importer) (ignored_modules : gset string)
    (app_configs : list (AppConfig * string)) (st : state)
    : failure + state :=
  match app_configs with
  | [] => inr st
  | cand :: rest =>
      match visit_candidate imp ignored_modules st cand with
      | inl e => inl e
      | inr st' => visit_candidates imp ignored_modules rest st'
      end
  end.

Definition discover_tasks_modules (dj : Django) (imp : Importer)
    : failure + state :=
  let task_module_names :=
    getattr (DRAMATIQ_AUTODISCOVER_MODULES dj) ["tasks"] in
  let ignored_modules : gset string :=
    list_to_set (getattr (DRAMATIQ_IGNORED_MODULES dj) []) in
  let app_configs := pair_app_configs dj task_module_names in
  visit_candidates imp ignored_modules app_configs
    {| stdout := []; tasks_modules := ["django_dramatiq.setup"] |}.

(** [c] occurs in [s]. *)
Fixpoint contains (c : ascii) (s : string) : bool :=
  match s with
  | EmptyString => false
  | String c' s' => Ascii.eqb c' c || contains c s'
  end.

(** ** Command-line options (lines 17-105) *)

(** The host the command runs on: [sys.platform], [sys.executable], the
    [os.path] functions [_resolve_executable] calls, the exit status of a
    child started by [subprocess.run], the integer values of the environment
    variables that are set, and [multiprocessing.cpu_count()]. *)
Record Host := {
  platform : string;
  executable : string;
  dirname : string → string;
  path_join : string → string → string;
  isfile : string → bool;
  child_returncode : list string → Z;
  environ : string → option Z;
  cpu_count : Z;
}.

(** Modelled from the spec: [getenv_int] of [django_dramatiq/utils.py],
    which is not among the sources.  The spec lets the environment override
    the built-in default: the value of the variable when it is set, the
    default otherwise. *)
Definition getenv_int (h : Host) (varname : string) (default : Z) : Z :=
  match environ h varname with
  | Some v => v
  | None => default
  end.

Definition NPROCS (h : Host) : Z := getenv_int h "DRAMATIQ_NPROCS" (cpu_count h).

Definition NTHREADS (h : Host) : Z := getenv_int h "DRAMATIQ_NTHREADS" 8.

(** The two members of the mutually exclusive watch group. *)
Inductive watch_flag :=
  | Reload                  (* --reload: store_const "." *)
  | Watch (dir : string).   (* --watch DIR *)

(** What was given on the command line; [None] is a flag left out. *)
Record CommandLine := {
  cli_skip_logging : bool;
  cli_watch : option watch_flag;
  cli_reload_use_polling : bool;
  cli_use_gevent : bool;
  cli_processes : option Z;
  cli_threads : option Z;
  cli_path : option (list string);
  cli_queues : option (list string);
  cli_pid_file : option string;
  cli_log_file : option string;
  cli_fork_function : list string;
  cli_worker_shutdown_timeout : option Z;
  cli_verbosity : option Z;
}.

(** The keyword arguments [handle] receives. *)
Record Options := {
  watch_dir : option string;
  skip_logging : bool;
  use_polling_watcher : bool;
  use_gevent : bool;
  path : list string;
  processes : Z;
  threads : Z;
  verbosity : Z;
  queues : option (list string);
  pid_file : option string;
  log_file : option string;
  forks : list string;
  worker_shutdown_timeout : Z;
}.

(** The parser set up by [add_arguments]: a flag left out takes its
    [default].  The default of [--path] is the string ["."], which [*path]
    unpacks to the one-element list; [verbosity] is Django's own option
    and defaults to 1. *)
Definition add_arguments (h : Host) (cli : CommandLine) : Options := {|
  watch_dir :=
    match cli_watch cli with
    | Some Reload => Some "."
    | Some (Watch dir) => Some dir
    | None => None
    end;
  skip_logging := cli_skip_logging cli;
  use_polling_watcher := cli_reload_use_polling cli;
  use_gevent := cli_use_gevent cli;
  path := getattr (cli_path cli) ["."];
  processes := getattr (cli_processes cli) (NPROCS h);
  threads := getattr (cli_threads cli) (NTHREADS h);
  verbosity := getattr (cli_verbosity cli) 1;
  queues := cli_queues cli;
  pid_file := cli_pid_file cli;
  log_file := cli_log_file cli;
  forks := cli_fork_function cli;
  worker_shutdown_timeout := getattr (cli_worker_shutdown_timeout cli) 600000;
|}.

(** ** The argument vector (lines 109-152) *)

Definition executable_name (o : Options) : string :=
  if use_gevent o then "dramatiq-gevent" else "dramatiq".

(** Lines 111-113. *)
Definition watch_args (o : Options) : list string :=
  let watch_args :=
    match watch_dir o with
    | Some ((String _ _) as dir) => ["--watch"; dir]
    | _ => []                          (* [None] and [""] are falsy *)
    end in
  if match watch_args with [] => false | _ => true end
     && use_polling_watcher o
  then watch_args ++ ["--watch-use-polling"]
  else watch_args.

(** Lines 115-118. *)
Definition forks_args (o : Options) : list string :=
  match forks o with
  | [] => []
  | fs => foldl (fun acc function => acc ++ ["--fork-function"; function]) [] fs
  end.

(** Line 120. *)
Definition verbosity_args (o : Options) : list string :=
  Py.list_mul ["-v"] (verbosity o - 1).

(** Lines 122-152. *)
Definition process_args (o : Options) (tasks_modules : list string)
    : list string :=
  let process_args :=
    [executable_name o; "--path"] ++ path o
    ++ ["--processes"; Py.str (processes o);
        "--threads"; Py.str (threads o);
        "--worker-shutdown-timeout"; Py.str (worker_shutdown_timeout o)]
    ++ watch_args o
    ++ forks_args o
    ++ verbosity_args o
    ++ tasks_modules in
  let process_args :=
    match queues o with
    | Some ((_ :: _) as qs) => process_args ++ "--queues" :: qs
    | _ => process_args                (* [None] and [[]] are falsy *)
    end in
  let process_args :=
    match pid_file o with
    | Some ((String _ _) as file) => process_args ++ ["--pid-file"; file]
    | _ => process_args
    end in
  let process_args :=
    match log_file o with
    | Some ((String _ _) as file) => process_args ++ ["--log-file"; file]
    | _ => process_args
    end in
  if skip_logging o then process_args ++ ["--skip-logging"]
  else process_args.

(** ** Hand-off (lines 154-160, 228-235) *)

Definition _resolve_executable (h : Host) (exec_name : string) : string :=
  let bin_dir := dirname h (executable h) in
  match bin_dir with
  | EmptyString => exec_name
  | _ =>
      match
        List.find (fun d => isfile h (path_join h d exec_name))
                  [bin_dir; path_join h bin_dir "Scripts"]
      with
      | Some d => path_join h d exec_name
      | None => exec_name
      end
  end.

(** What [subprocess.run] returns. *)
Record CompletedProcess := {
  args : list string;
  returncode : Z;
}.

Definition subprocess_run (h : Host) (command : list string)
    : CompletedProcess :=
  {| args := command; returncode := child_returncode h command |}.

(** The objects [sys.exit] is called with here. *)
Inductive py_value :=
  | PyNone
  | PyInt (n : Z)
  | PyCompletedProcess (p : CompletedProcess).

(** The exit status [sys.exit(arg)] gives the process: an integer is the
    status, [None] is zero, and any other object is printed to [stderr]
    with status one. *)
Definition sys_exit_status (arg : py_value) : Z :=
  match arg with
  | PyNone => 0
  | PyInt n => n
  | PyCompletedProcess _ => 1
  end.

(** How [handle] ends. *)
Inductive outcome :=
  | Execvp (file : string) (argv : list string)
      (* the process image is replaced *)
  | ChildThenExit (command : list string) (status : Z)
      (* a child ran to its end, then this process exited *)
  | Raised (e : exn).

Definition handle (dj : Django) (imp : Importer) (h : Host) (o : Options)
    : list line * outcome :=
  let executable_path := _resolve_executable h (executable_name o) in
  match discover_tasks_modules dj imp with
  | inl (out, e) => (out, Raised e)
  | inr st =>
      let process_args := process_args o (tasks_modules st) in
      let out := stdout st ++ [RunningLine (Py.join " " process_args)] in
      if String.eqb (platform h) "win32" then
        let command := executable_path :: tail process_args in
        (out, ChildThenExit command
                (sys_exit_status (PyCompletedProcess (subprocess_run h command))))
      else (out, Execvp executable_path process_args)
  end.

(** ** Vocabulary of the specification *)

(** [s] ends in [suffix]. *)
Fixpoint ends_with (suffix s : string) : bool :=
  String.eqb s suffix
  || match s with
     | EmptyString => false
     | String _ s' => ends_with suffix s'
     end.

(** An ignore pattern with the wildcard marker. *)
Definition is_wildcard (pattern : string) : bool := ends_with ".*" pattern.

(** [m] lies strictly below the prefix of a wildcard pattern of [P]. *)
Definition wildcard_hit (P : gset string) (m : string) : Prop :=
  ∃ p rest, p +:+ ".*" ∈ P ∧ m = p +:+ "." +:+ rest.

(** The dotted path of a TaskModuleCandidate. *)
Definition candidate_path (cand : AppConfig * string) : string :=
  name cand.1 +:+ "." +:+ cand.2.

(** The submodules of a package that the ignore patterns let through, in
    enumeration order. *)
Definition accepted (ignored_modules : gset string) (submodules : list string)
    : list string :=
  List.filter (fun s => negb (is_ignored_module ignored_modules s)) submodules.

(** What a candidate contributes to the DiscoveredModuleList: nothing when
    it is ignored, itself when it resolves to a plain module, its accepted
    descendants when it resolves to a package. *)
Definition contribution (imp : Importer) (ignored_modules : gset string)
    (cand : AppConfig * string) : list string :=
  if is_ignored_module ignored_modules (candidate_path cand) then []
  else
    match import_module imp (candidate_path cand) with
    | None => []
    | Some m =>
        match __path__ m with
        | None => [candidate_path cand]
        | Some search_path =>
            accepted ignored_modules
              (walk_packages imp search_path (__name__ m +:+ "."))
        end
    end.

(** The two settings as the discovery reads them. *)
Definition task_module_names (dj : Django) : list string :=
  getattr (DRAMATIQ_AUTODISCOVER_MODULES dj) ["tasks"].

Definition ignored_modules (dj : Django) : gset string :=
  list_to_set (getattr (DRAMATIQ_IGNORED_MODULES dj) []).

(** The parts of the argument vector, in the words of the specification. *)
Module Spec.

Definition import_paths (o : Options) : list string := "--path" :: path o.

Definition process_count (o : Options) : list string :=
  ["--processes"; Py.str (processes o)].

Definition thread_count (o : Options) : list string :=
  ["--threads"; Py.str (threads o)].

Definition shutdown_timeout (o : Options) : list string :=
  ["--worker-shutdown-timeout"; Py.str (worker_shutdown_timeout o)].

(** A value that is given and not empty. *)
Definition given (v : option string) : option string :=
  match v with
  | Some EmptyString => None
  | other => other
  end.

(** The watch directory, and the polling flag only next to it. *)
Definition watch_directory (o : Options) : list string :=
  match given (watch_dir o) with
  | Some dir =>
      "--watch" :: dir
      :: (if use_polling_watcher o then ["--watch-use-polling"] else [])
  | None => []
  end.

(** One flag and value per function, in input order. *)
Definition fork_functions (o : Options) : list string :=
  flat_map (fun function => ["--fork-function"; function]) (forks o).

(** One ["-v"] per level above the base verbosity, which is 1. *)
Definition verbosity_flags (o : Options) : list string :=
  replicate (Z.to_nat (verbosity o - 1)) "-v".

Definition queue_filter (o : Options) : list string :=
  match queues o with
  | None | Some [] => []
  | Some qs => "--queues" :: qs
  end.

Definition pid_file_path (o : Options) : list string :=
  match given (pid_file o) with
  | Some file => ["--pid-file"; file]
  | None => []
  end.

Definition log_file_path (o : Options) : list string :=
  match given (log_file o) with
  | Some file => ["--log-file"; file]
  | None => []
  end.

Definition skip_logging_flag (o : Options) : list string :=
  if skip_logging o then ["--skip-logging"] else [].

(** Flag over environment over built-in default. *)
Definition precedence (flag env : option Z) (builtin : Z) : Z :=
  match flag, env with
  | Some v, _ => v
  | None, Some v => v
  | None, None => builtin
  end.

(** The values that reach the vector as they were supplied, the watch
    directory apart. *)
Definition supplied_values (o : Options) (tasks_modules : list string)
    : list string :=
  path o ++ forks o ++ tasks_modules
  ++ getattr (queues o) []
  ++ option_list (pid_file o) ++ option_list (log_file o).

End Spec.

(** [o] with another polling toggle. *)
Definition with_polling (b : bool) (o : Options) : Options := {|
  watch_dir := watch_dir o;
  skip_logging := skip_logging o;
  use_polling_watcher := b;
  use_gevent := use_gevent o;
  path := path o;
  processes := processes o;
  threads := threads o;
  verbosity := verbosity o;
  queues := queues o;
  pid_file := pid_file o;
  log_file := log_file o;
  forks := forks o;
  worker_shutdown_timeout := worker_shutdown_timeout o;
|}.

(** [o] with another queue subset. *)
Definition with_queues (q : option (list string)) (o : Options) : Options := {|
  watch_dir := watch_dir o;
  skip_logging := skip_logging o;
  use_polling_watcher := use_polling_watcher o;
  use_gevent := use_gevent o;
  path := path o;
  processes := processes o;
  threads := threads o;
  verbosity := verbosity o;
  queues := q;
  pid_file := pid_file o;
  log_file := log_file o;
  forks := forks o;
  worker_shutdown_timeout := worker_shutdown_timeout o;
|}.

(** ** Discovery with every exception *)

(** The import system as it can fail: [importlib.import_module] raises
    whatever the import of the module raises, and [pkgutil.walk_packages],
    called without [onerror] at line 223, whatever the import of a
    subpackage raises other than [ImportError].  [_get_submodules] collects
    the whole walk before anything is written, so a walk is either the
    list of its names or the exception that ended it. *)
Record RaisingImporter := {
  import_or_raise : string → exn + PyModule;
  walk_or_raise : list string → exn + list string;
}.

Module Raising.

Definition _get_submodules (imp : RaisingImporter) (package : PyModule)
    : exn + list string :=
  match __path__ package with
  | None => inl (AttributeError "__path__")
  | Some package_path =>
      let prefix := __name__ package +:+ "." in
      match walk_or_raise imp package_path with
      | inl e => inl e
      | inr names => inr (map (fun n => prefix +:+ n) names)
      end
  end.

(** One turn of the outer loop (lines 193-210). *)
Definition visit_candidate (imp : RaisingImporter)
    (ignored_modules : gset string) (st : state) (cand : AppConfig * string)
    : failure + state :=
  let '(conf, task_module) := cand in
  let module := name conf +:+ "." +:+ task_module in
  if is_ignored_module ignored_modules module
  then inr (write (IgnoredLine module) st)
  else
    match import_or_raise imp module with
    | inl e => inl (stdout st, e)
    | inr imported_module =>
        if negb (_is_package imported_module)
        then inr (append_module module (write (DiscoveredLine module) st))
        else
          match _get_submodules imp imported_module with
          | inl e => inl (stdout st, e)
          | inr submodules =>
              inr (visit_submodules ignored_modules submodules st)
          end
    end.

(** The outer loop (line 192); an exception ends it. *)
Fixpoint visit_candidates (imp : RaisingImporter)
    (ignored_modules : gset string)
    (app_configs : list (AppConfig * string)) (st : state)
    : failure + state :=
  match app_configs with
  | [] => inr st
  | cand :: rest =>
      match visit_candidate imp ignored_modules st cand with
      | inl e => inl e
      | inr st' => visit_candidates imp ignored_modules rest st'
      end
  end.

Definition discover_tasks_modules (dj : Django) (imp : RaisingImporter)
    : failure + state :=
  let task_module_names :=
    getattr (DRAMATIQ_AUTODISCOVER_MODULES dj) ["tasks"] in
  let ignored_modules : gset string :=
    list_to_set (getattr (DRAMATIQ_IGNORED_MODULES dj) []) in
  let app_configs := pair_app_configs dj task_module_names in
  visit_candidates imp ignored_modules app_configs
    {| stdout := []; tasks_modules := ["django_dramatiq.setup"] |}.


(** An import system that fails only for want of the module, seen as one
    that can raise. *)
Definition of_importer (imp : Importer) : RaisingImporter := {|
  import_or_raise n :=
    match import_module imp n with
    | Some m => inr m
    | None => inl (ImportError n)
    end;
  walk_or_raise search_path := inr (walk_names imp search_path);
|}.

End Raising.

(** ** Sample worlds *)

Module Sample.

Definition plain (n : string) : PyModule :=
  {| __name__ := n; __path__ := None |}.

Definition package (n : string) (search_path : list string) : PyModule :=
  {| __name__ := n; __path__ := Some search_path |}.

(** The application [app], whose [app.tasks] is a package holding
    [email] and [sms], and this project's own application. *)
Definition app : AppConfig :=
  {| name := "app"; module := package "app" ["/srv/app"] |}.

Definition django_dramatiq : AppConfig :=
  {| name := "django_dramatiq";
     module := package "django_dramatiq" ["/srv/django_dramatiq"] |}.

Definition importer : Importer := {|
  import_module n :=
    if String.eqb n "app.tasks"
    then Some (package "app.tasks" ["/srv/app/tasks"])
    else if String.eqb n "django_dramatiq.tasks"
    then Some (plain "django_dramatiq.tasks")
    else None;
  walk_names search_path :=
    if bool_decide (search_path = ["/srv/app/tasks"])
    then ["email"; "sms"] else [];
|}.

(** The same layout with [app.tasks] a plain module. *)
Definition flat_importer : Importer := {|
  import_module n :=
    if String.eqb n "app.tasks" then Some (plain "app.tasks") else None;
  walk_names _ := [];
|}.

Definition has_tasks (m : PyModule) (task_module : string) : bool :=
  String.eqb (__name__ m) "app" && String.eqb task_module "tasks".

(** Only [app] is installed; [ignored] is [DRAMATIQ_IGNORED_MODULES]. *)
Definition site (ignored : option (list string)) : Django := {|
  get_app_configs := [app];
  DRAMATIQ_AUTODISCOVER_MODULES := None;
  DRAMATIQ_IGNORED_MODULES := ignored;
  module_has_submodule := has_tasks;
|}.

(** Both applications are installed, and the task modules are configured
    to be called [jobs]. *)
Definition own_site (ignored : option (list string)) : Django := {|
  get_app_configs := [django_dramatiq; app];
  DRAMATIQ_AUTODISCOVER_MODULES := Some ["jobs"];
  DRAMATIQ_IGNORED_MODULES := ignored;
  module_has_submodule := has_tasks;
|}.

(** Two applications, one inside the other, with the default settings:
    the package [shop.tasks] is the task module of [shop] and an
    application of its own, whose task module [shop.tasks.tasks] is a
    package holding [email]. *)
Definition shop : AppConfig :=
  {| name := "shop"; module := package "shop" ["/srv/shop"] |}.

Definition shop_tasks : AppConfig :=
  {| name := "shop.tasks";
     module := package "shop.tasks" ["/srv/shop/tasks"] |}.

Definition nested_site : Django := {|
  get_app_configs := [shop; shop_tasks];
  DRAMATIQ_AUTODISCOVER_MODULES := None;
  DRAMATIQ_IGNORED_MODULES := None;
  module_has_submodule m task_module :=
    (String.eqb (__name__ m) "shop" || String.eqb (__name__ m) "shop.tasks")
    && String.eqb task_module "tasks";
|}.

Definition nested_importer : Importer := {|
  import_module n :=
    if String.eqb n "shop.tasks"
    then Some (package "shop.tasks" ["/srv/shop/tasks"])
    else if String.eqb n "shop.tasks.tasks"
    then Some (package "shop.tasks.tasks" ["/srv/shop/tasks/tasks"])
    else None;
  walk_names search_path :=
    if bool_decide (search_path = ["/srv/shop/tasks"])
    then ["tasks"; "tasks.email"]
    else if bool_decide (search_path = ["/srv/shop/tasks/tasks"])
    then ["email"]
    else [];
|}.


(** A POSIX host with two CPUs and [DRAMATIQ_NTHREADS=4]. *)
Definition host : Host := {|
  platform := "linux";
  executable := "/venv/bin/python";
  dirname p := if String.eqb p "/venv/bin/python" then "/venv/bin" else "";
  path_join a b := a +:+ "/" +:+ b;
  isfile p := String.eqb p "/venv/bin/dramatiq";
  child_returncode _ := 0;
  environ v := if String.eqb v "DRAMATIQ_NTHREADS" then Some 4 else None;
  cpu_count := 2;
|}.

(** A Windows host, on which every child succeeds. *)
Definition win_host : Host := {|
  platform := "win32";
  executable := "C:\venv\python.exe";
  dirname p := if String.eqb p "C:\venv\python.exe" then "C:\venv" else "";
  path_join a b := a +:+ "\" +:+ b;
  isfile p := String.eqb p "C:\venv\Scripts\dramatiq";
  child_returncode _ := 0;
  environ _ := None;
  cpu_count := 2;
|}.

(** A command line with no flag at all. *)
Definition bare : CommandLine := {|
  cli_skip_logging := false;
  cli_watch := None;
  cli_reload_use_polling := false;
  cli_use_gevent := false;
  cli_processes := None;
  cli_threads := None;
  cli_path := None;
  cli_queues := None;
  cli_pid_file := None;
  cli_log_file := None;
  cli_fork_function := [];
  cli_worker_shutdown_timeout := None;
  cli_verbosity := None;
|}.

(** [--reload --reload-use-polling -p 3 -Q default mail --pid-file w.pid
    --fork-function a.f --fork-function b.g --skip-logging -v 3]. *)
Definition busy : CommandLine := {|
  cli_skip_logging := true;
  cli_watch := Some Reload;
  cli_reload_use_polling := true;
  cli_use_gevent := false;
  cli_processes := Some 3;
  cli_threads := None;
  cli_path := None;
  cli_queues := Some ["default"; "mail"];
  cli_pid_file := Some "w.pid";
  cli_log_file := None;
  cli_fork_function := ["a.f"; "b.g"];
  cli_worker_shutdown_timeout := None;
  cli_verbosity := Some 3;
|}.

(** [--reload-use-polling] alone, and [-Q] with no queue. *)
Definition polling_only : CommandLine := {|
  cli_skip_logging := false;
  cli_watch := None;
  cli_reload_use_polling := true;
  cli_use_gevent := false;
  cli_processes := None;
  cli_threads := None;
  cli_path := None;
  cli_queues := Some [];
  cli_pid_file := None;
  cli_log_file := None;
  cli_fork_function := [];
  cli_worker_shutdown_timeout := None;
  cli_verbosity := None;
|}.

End Sample.

(** The module names of the "Discovered" lines of a report, in order. *)
Definition discovered_names (out : list line) : list string :=
  flat_map (fun l => match l with DiscoveredLine m => [m] | _ => [] end) out.

(** A report line tells the truth about the matcher: an "Ignored" line
    names a module the patterns match, a "Discovered" line one they do not
    match; the discovery writes no other line. *)
Definition report_agrees (ignored_modules : gset string) (l : line) : Prop :=
  match l with
  | IgnoredLine m => is_ignored_module ignored_modules m = true
  | DiscoveredLine m => is_ignored_module ignored_modules m = false
  | RunningLine _ => False
  end.

(** What a run of the loops adds to the state: lines, and the names of the
    "Discovered" ones among them. *)
Definition extends (ignored_modules : gset string) (st st' : state)
    (added : list line) : Prop :=
  stdout st' = stdout st ++ added
  ∧ tasks_modules st' = tasks_modules st ++ discovered_names added
  ∧ Forall (report_agrees ignored_modules) added.

(** A candidate the loop can get past: ignored, or importable. *)
Definition passable (imp : Importer) (ignored_modules : gset string)
    (cand : AppConfig * string) : Prop :=
  is_ignored_module ignored_modules (candidate_path cand) = true
  ∨ import_module imp (candidate_path cand) ≠ None.

(** Closes [In x l] for a literal list [l] that holds [x]. *)
Ltac in_literal := simpl; repeat first [left; reflexivity | right].

(** * Properties *)

Example split_abc : Py.split dot "a.b.c" = ["a"; "b"; "c"].
Proof. reflexivity. Qed.

Example split_empty : Py.split dot "" = [""].
Proof. reflexivity. Qed.

Example split_trailing : Py.split dot "a." = ["a"; ""].
Proof. reflexivity. Qed.

Example ignored_a_star : is_ignored_module {["a.*"]} "a.b.c" = true.
Proof. vm_compute. reflexivity. Qed.

Example ignored_ab_star : is_ignored_module {["a.b.*"]} "a.b.c" = true.
Proof. vm_compute. reflexivity. Qed.

Example ignored_a_exact : is_ignored_module {["a"]} "a.b.c" = false.
Proof. vm_compute. reflexivity. Qed.

Example str_12 : Py.str 12 = "12".
Proof. reflexivity. Qed.

Example str_neg : Py.str (-3) = "-3".
Proof. reflexivity. Qed.

Example str_0 : Py.str 0 = "0".
Proof. reflexivity. Qed.

(** ** Facts about [split] and [join] *)

Section StringFacts.

Lemma append_nil_l (s : string) : "" +:+ s = s.
Proof. reflexivity. Qed.

Lemma append_cons (c : ascii) (s1 s2 : string) :
  String c s1 +:+ s2 = String c (s1 +:+ s2).
Proof. reflexivity. Qed.

Lemma append_assoc (s1 s2 s3 : string) :
  (s1 +:+ s2) +:+ s3 = s1 +:+ (s2 +:+ s3).
Proof.
  induction s1 as [|c s1 IH]; [reflexivity |].
  rewrite !append_cons. now f_equal.
Qed.

Lemma append_length (s1 s2 : string) :
  String.length (s1 +:+ s2) = (String.length s1 + String.length s2)%nat.
Proof.
  induction s1 as [|c s1 IH]; [reflexivity |].
  rewrite append_cons. simpl. now f_equal.
Qed.

Lemma split_not_nil sep s : Py.split sep s ≠ [].
Proof.
  destruct s as [|c s]; simpl; [discriminate |].
  destruct (Ascii.eqb c sep); [discriminate |].
  destruct (Py.split sep s); discriminate.
Qed.

Lemma split_length_pos sep s : (1 <= length (Py.split sep s))%nat.
Proof.
  pose proof (split_not_nil sep s) as H.
  destruct (Py.split sep s); [congruence | simpl; lia].
Qed.

(** Splitting [p + sep + rest] gives the parts of [p] and then those of
    [rest]. *)
Lemma split_app_sep sep p rest :
  Py.split sep (p +:+ String sep rest) = Py.split sep p ++ Py.split sep rest.
Proof.
  induction p as [|c p IH].
  - rewrite append_nil_l. simpl. now rewrite Ascii.eqb_refl.
  - rewrite append_cons. simpl.
    destruct (Ascii.eqb c sep); [now rewrite IH |].
    rewrite IH.
    pose proof (split_not_nil sep p) as Hne.
    destruct (Py.split sep p) as [|h t]; [congruence | reflexivity].
Qed.

(** A string without the separator is its own single part. *)
Lemma split_no_sep sep s : contains sep s = false → Py.split sep s = [s].
Proof.
  induction s as [|c s IH]; simpl; [reflexivity |].
  intros [Hc Hs]%orb_false_iff. rewrite Hc, (IH Hs). reflexivity.
Qed.

Lemma join_cons sep x l :
  l ≠ [] → Py.join sep (x :: l) = x +:+ sep +:+ Py.join sep l.
Proof. destruct l; [congruence | reflexivity]. Qed.

Lemma join_app sep l1 l2 :
  l1 ≠ [] → l2 ≠ [] →
  Py.join sep (l1 ++ l2) = Py.join sep l1 +:+ sep +:+ Py.join sep l2.
Proof.
  induction l1 as [|x l1 IH]; intros H1 H2; [congruence |].
  destruct l1 as [|y l1].
  - simpl app. now rewrite join_cons.
  - change ((x :: y :: l1) ++ l2) with (x :: ((y :: l1) ++ l2)).
    rewrite join_cons by discriminate.
    rewrite IH by (discriminate || assumption).
    rewrite (join_cons sep x (y :: l1)) by discriminate.
    now rewrite !append_assoc.
Qed.

(** Joining the parts with the separator gives the string back. *)
Lemma join_split sep s : Py.join (String sep "") (Py.split sep s) = s.
Proof.
  induction s as [|c s IH]; simpl; [reflexivity |].
  pose proof (split_not_nil sep s) as Hne.
  destruct (Ascii.eqb_spec c sep) as [->|Hc].
  - rewrite join_cons by assumption.
    rewrite append_nil_l, append_cons, append_nil_l. now rewrite IH.
  - destruct (Py.split sep s) as [|h t] eqn:E; [congruence |].
    destruct t as [|h' t].
    + simpl in *. now rewrite IH.
    + rewrite join_cons by discriminate.
      rewrite join_cons in IH by discriminate.
      rewrite append_cons. now rewrite IH.
Qed.

End StringFacts.

(** ** What the matcher accepts *)

Section IgnoreMatcher.

Implicit Types (P : gset string) (m p rest : string).

Lemma range_spec a b c : In c (Py.range a b) ↔ (a <= c < b)%nat.
Proof. unfold Py.range. rewrite in_seq. lia. Qed.

Lemma loop_hit_iff P m :
  existsb (fun c => bool_decide (part_name (Py.split dot m) c ∈ P))
          (Py.range 1 (length (Py.split dot m))) = true
  ↔ wildcard_hit P m.
Proof.
  rewrite existsb_exists. split.
  - intros (c & [Hc1 Hc2]%range_spec & Hin%bool_decide_eq_true).
    exists (Py.join "." (take c (Py.split dot m))),
           (Py.join "." (drop c (Py.split dot m))).
    split; [exact Hin |].
    rewrite <- (join_split dot m) at 1.
    rewrite <- (take_drop c (Py.split dot m)) at 1.
    apply join_app.
    + intros E. apply (f_equal length) in E. rewrite length_take in E.
      simpl in E. lia.
    + intros E. apply (f_equal length) in E. rewrite length_drop in E.
      simpl in E. lia.
  - intros (p & rest & Hin & ->).
    exists (length (Py.split dot p)).
    change ("." +:+ rest) with (String dot rest).
    rewrite split_app_sep. split.
    + apply range_spec. rewrite length_app.
      pose proof (split_length_pos dot p).
      pose proof (split_length_pos dot rest). lia.
    + apply bool_decide_eq_true. unfold part_name, Py.slice_to.
      rewrite take_app_length. change "."%string with (String dot "").
      now rewrite join_split.
Qed.

(** The matcher accepts exactly the members of the set and the strict
    descendants of its wildcard patterns. *)
Lemma is_ignored_module_iff P m :
  is_ignored_module P m = true ↔ m ∈ P ∨ wildcard_hit P m.
Proof.
  unfold is_ignored_module.
  case_bool_decide as Hempty.
  - subst P. split; [discriminate |].
    intros [H | (p & rest & H & _)]; set_solver.
  - case_bool_decide as Hmem; [tauto |].
    rewrite loop_hit_iff. tauto.
Qed.

End IgnoreMatcher.

(** ** The ignore matcher: wildcard and exact patterns *)

Section MatcherClaims.

Implicit Types (P : gset string) (m p q rest : string).

Lemma ends_with_append suffix p : ends_with suffix (p +:+ suffix) = true.
Proof.
  induction p as [|c p IH].
  - rewrite append_nil_l. destruct suffix; simpl.
    + reflexivity.
    + now rewrite Ascii.eqb_refl, String.eqb_refl.
  - rewrite append_cons. simpl. rewrite IH. apply orb_true_r.
Qed.

Lemma wildcard_hit_is_wildcard P m :
  wildcard_hit P m → ∃ q, q ∈ P ∧ is_wildcard q = true.
Proof.
  intros (p & rest & Hin & _). exists (p +:+ ".*"). split; [exact Hin |].
  apply ends_with_append.
Qed.

(** A name with a single part is never tried against a wildcard. *)
Lemma no_dot_no_wildcard_hit P m : contains dot m = false → ¬ wildcard_hit P m.
Proof.
  intros Hm Hhit. apply loop_hit_iff in Hhit.
  rewrite (split_no_sep dot m Hm) in Hhit. discriminate Hhit.
Qed.

(** C1: a pattern ending in the wildcard marker [".*"] makes the matcher
    accept every module whose dotted path is the pattern's prefix followed
    by a dot and anything (nothing included); a pattern without a wildcard
    makes it accept only the module equal to it, in whatever set the
    pattern stands: adding such a pattern [q] to a set changes the answer
    for [q] alone.  So for every pattern set a module is accepted exactly
    when it is a member or lies below the prefix of a wildcard pattern of
    the set; a set of patterns without a wildcard accepts exactly its
    members, and a single such pattern exactly itself.  In particular
    ["a.b.c"] is ignored under [{"a.*"}] and under [{"a.b.*"}], and not
    under [{"a"}]; nor is ["a.b"] under [{"a"; "x.*"}]. *)
Theorem is_ignored_module_wildcard_and_exact :
  (∀ P p rest,
     p +:+ ".*" ∈ P → is_ignored_module P (p +:+ "." +:+ rest) = true)
  ∧ (∀ P m,
       (∀ q, q ∈ P → is_wildcard q = false) →
       (is_ignored_module P m = true ↔ m ∈ P))
  ∧ (∀ q m,
       is_wildcard q = false →
       (is_ignored_module {[q]} m = true ↔ m = q))
  ∧ (∀ P m,
       is_ignored_module P m = true
       ↔ m ∈ P ∨ ∃ p rest, p +:+ ".*" ∈ P ∧ m = p +:+ "." +:+ rest)
  ∧ (∀ P q m,
       is_wildcard q = false →
       (is_ignored_module (P ∪ {[q]}) m = true
        ↔ m = q ∨ is_ignored_module P m = true))
  ∧ is_ignored_module {["a.*"]} "a.b.c" = true
  ∧ is_ignored_module {["a.b.*"]} "a.b.c" = true
  ∧ is_ignored_module {["a"]} "a.b.c" = false
  ∧ is_ignored_module {["a"; "x.*"]} "a.b" = false.
Proof.
  assert (Hexact : ∀ P m, (∀ q, q ∈ P → is_wildcard q = false) →
                          (is_ignored_module P m = true ↔ m ∈ P)).
  { intros P m Hno. rewrite is_ignored_module_iff. split; [| tauto].
    intros [H | Hhit]; [exact H |].
    destruct (wildcard_hit_is_wildcard P m Hhit) as (q & Hq & Hw).
    rewrite (Hno q Hq) in Hw. discriminate Hw. }
  split; [| split; [exact Hexact | split; [| split; [| split]]]].
  - intros P p rest Hin. apply is_ignored_module_iff. right.
    exists p, rest. split; [exact Hin | reflexivity].
  - intros q m Hq. rewrite Hexact.
    + apply elem_of_singleton.
    + intros q' Hq'. apply elem_of_singleton in Hq'. now subst q'.
  - intros P m. apply is_ignored_module_iff.
  - intros P q m Hq. rewrite !is_ignored_module_iff. unfold wildcard_hit.
    split.
    + intros [Hin | (p & rest & Hin & ->)]; apply elem_of_union in Hin.
      * destruct Hin as [Hin | Hin]; [tauto |].
        apply elem_of_singleton in Hin. now left.
      * destruct Hin as [Hin | Hin]; [right; right; eauto |].
        apply elem_of_singleton in Hin. exfalso.
        unfold is_wildcard in Hq.
        rewrite <- Hin, ends_with_append in Hq. discriminate Hq.
    + intros [-> | [Hin | (p & rest & Hin & ->)]].
      * left. apply elem_of_union. right. now apply elem_of_singleton.
      * left. apply elem_of_union. now left.
      * right. exists p, rest. split; [| reflexivity].
        apply elem_of_union. now left.
  - repeat split; vm_compute; reflexivity.
Qed.

(** The hypotheses of C1 at [{"a.b.*"}], [{"a"}] and ["a.b.c"]. *)
Lemma is_ignored_module_wildcard_and_exact_witness :
  is_ignored_module {["a.b.*"]} ("a.b" +:+ "." +:+ "c") = true
  ∧ (is_ignored_module {["a"]} "a" = true ↔ "a" = "a").
Proof.
  destruct is_ignored_module_wildcard_and_exact as (Hwild & _ & Hone & _).
  split.
  - apply (Hwild {["a.b.*"]} "a.b" "c"). apply elem_of_singleton. reflexivity.
  - apply (Hone "a" "a"). reflexivity.
Defined.

(** C6: the matcher has no false positives.  A non-empty set holding
    neither ["a.b"] nor ["a.*"] does not ignore ["a.b"]; and a module name
    without a dot is ignored exactly when it is a member of the set, so no
    wildcard pattern ever matches it: ["standalone"] is not ignored under
    [{"x.*"}], nor under its own wildcard [{"standalone.*"}], and is ignored
    under [{"standalone"}]. *)
Theorem is_ignored_module_no_false_positive :
  (∀ P, P ≠ ∅ → "a.b" ∉ P → "a.*" ∉ P → is_ignored_module P "a.b" = false)
  ∧ (∀ P m, contains dot m = false →
            (is_ignored_module P m = true ↔ m ∈ P))
  ∧ is_ignored_module {["x.*"]} "standalone" = false
  ∧ is_ignored_module {["standalone.*"]} "standalone" = false
  ∧ is_ignored_module {["standalone"]} "standalone" = true.
Proof.
  split; [| split].
  - intros P Hne Hab Hstar. unfold is_ignored_module.
    rewrite (bool_decide_eq_false_2 _ Hne), (bool_decide_eq_false_2 _ Hab).
    change (Py.split dot "a.b") with ["a"; "b"].
    change (existsb _ _) with (bool_decide ("a.*" ∈ P) || false).
    now rewrite (bool_decide_eq_false_2 _ Hstar).
  - intros P m Hm. rewrite is_ignored_module_iff. split; [| tauto].
    intros [H | Hhit]; [exact H |].
    destruct (no_dot_no_wildcard_hit P m Hm Hhit).
  - repeat split; vm_compute; reflexivity.
Qed.

(** The hypotheses of C6 at [{"a.c"; "b.*"}] and at ["standalone"]. *)
Lemma is_ignored_module_no_false_positive_witness :
  is_ignored_module {["a.c"; "b.*"]} "a.b" = false
  ∧ (is_ignored_module {["x.*"; "standalone"]} "standalone" = true
     ↔ "standalone" ∈ ({["x.*"; "standalone"]} : gset string)).
Proof.
  destruct is_ignored_module_no_false_positive as (Hab & Hflat & _).
  split.
  - apply Hab; vm_compute; intros H; inversion H.
  - apply Hflat. reflexivity.
Defined.

End MatcherClaims.

(** ** Discovery: the list is the seed followed by the contributions *)

Section DiscoveryFacts.

Context (imp : Importer) (I : gset string).

Lemma visit_submodules_modules subs st :
  tasks_modules (visit_submodules I subs st)
  = tasks_modules st ++ accepted I subs.
Proof.
  unfold visit_submodules, accepted.
  revert st; induction subs as [|s subs IH]; intros st; simpl.
  - now rewrite app_nil_r.
  - rewrite IH. destruct (is_ignored_module I s); simpl; [reflexivity |].
    now rewrite <- app_assoc.
Qed.

Lemma visit_candidate_modules st cand st' :
  visit_candidate imp I st cand = inr st' →
  tasks_modules st' = tasks_modules st ++ contribution imp I cand.
Proof.
  destruct cand as [conf tm]. unfold visit_candidate, contribution.
  change (candidate_path (conf, tm)) with (name conf +:+ "." +:+ tm).
  destruct (is_ignored_module I _).
  { intros [= <-]. simpl. now rewrite app_nil_r. }
  destruct (import_module imp _) as [m|]; [| discriminate].
  unfold _is_package, _get_submodules.
  destruct (__path__ m) as [search_path|]; simpl.
  - intros [= <-]. apply visit_submodules_modules.
  - intros [= <-]. reflexivity.
Qed.

Lemma visit_candidates_modules cands st st' :
  visit_candidates imp I cands st = inr st' →
  tasks_modules st' = tasks_modules st ++ flat_map (contribution imp I) cands.
Proof.
  revert st; induction cands as [|cand cands IH]; intros st; simpl.
  - intros [= <-]. now rewrite app_nil_r.
  - destruct (visit_candidate imp I st cand) as [e|st1] eqn:E; [discriminate |].
    intros H. rewrite (IH _ H), (visit_candidate_modules _ _ _ E).
    now rewrite <- app_assoc.
Qed.

(** The loop ends without an exception when every candidate that is not
    ignored can be imported. *)
Lemma visit_candidates_returns cands st :
  (∀ cand, In cand cands →
     is_ignored_module I (candidate_path cand) = false →
     import_module imp (candidate_path cand) ≠ None) →
  ∃ st', visit_candidates imp I cands st = inr st'.
Proof.
  revert st; induction cands as [|cand cands IH]; intros st Hall; simpl.
  - now exists st.
  - assert (∃ st1, visit_candidate imp I st cand = inr st1) as [st1 ->].
    { specialize (Hall cand (or_introl eq_refl)).
      destruct cand as [conf tm]. unfold visit_candidate.
      change (name conf +:+ "." +:+ tm) with (candidate_path (conf, tm)).
      destruct (is_ignored_module I _); [eauto |].
      specialize (Hall eq_refl).
      destruct (import_module imp _) as [m|]; [| congruence].
      unfold _is_package, _get_submodules.
      destruct (__path__ m); simpl; eauto. }
    apply IH. intros c Hc. apply Hall. now right.
Qed.

End DiscoveryFacts.

Lemma discover_modules dj imp st :
  discover_tasks_modules dj imp = inr st →
  tasks_modules st
  = "django_dramatiq.setup"
    :: flat_map (contribution imp (ignored_modules dj))
                (pair_app_configs dj (task_module_names dj)).
Proof.
  unfold discover_tasks_modules. intros H.
  now rewrite (visit_candidates_modules _ _ _ _ _ H).
Qed.

Lemma discover_returns dj imp :
  (∀ cand, In cand (pair_app_configs dj (task_module_names dj)) →
     is_ignored_module (ignored_modules dj) (candidate_path cand) = false →
     import_module imp (candidate_path cand) ≠ None) →
  ∃ st, discover_tasks_modules dj imp = inr st.
Proof. intros H. now apply visit_candidates_returns. Qed.

(** ** Discovery: the claims *)

Example discover_plain_module :
  discover_tasks_modules (Sample.site None) Sample.flat_importer
  = inr {| stdout := [DiscoveredLine "app.tasks"];
           tasks_modules := ["django_dramatiq.setup"; "app.tasks"] |}.
Proof. vm_compute. reflexivity. Qed.

Example discover_package :
  discover_tasks_modules (Sample.site (Some ["app.tasks.sms"])) Sample.importer
  = inr {| stdout := [DiscoveredLine "app.tasks.email";
                      IgnoredLine "app.tasks.sms"];
           tasks_modules := ["django_dramatiq.setup"; "app.tasks.email"] |}.
Proof. vm_compute. reflexivity. Qed.

Example discover_missing_module :
  discover_tasks_modules (Sample.own_site None) Sample.flat_importer
  = inl ([], ImportError "django_dramatiq.tasks").
Proof. vm_compute. reflexivity. Qed.

(** A package that is itself a candidate is listed when an enclosing
    package candidate enumerates it; its own turn adds only what lies
    below it. *)
Example discover_nested_packages :
  discover_tasks_modules Sample.nested_site Sample.nested_importer
  = inr {| stdout := [DiscoveredLine "shop.tasks.tasks";
                      DiscoveredLine "shop.tasks.tasks.email";
                      DiscoveredLine "shop.tasks.tasks.email"];
           tasks_modules := ["django_dramatiq.setup"; "shop.tasks.tasks";
                             "shop.tasks.tasks.email";
                             "shop.tasks.tasks.email"] |}.
Proof. vm_compute. reflexivity. Qed.

(** C4: whenever the discovery returns, its list has at least one element
    and starts with ["django_dramatiq.setup"]. *)
Theorem discover_tasks_modules_starts_with_setup dj imp st :
  discover_tasks_modules dj imp = inr st →
  (1 <= length (tasks_modules st))%nat
  ∧ head (tasks_modules st) = Some "django_dramatiq.setup".
Proof.
  intros H. rewrite (discover_modules _ _ _ H). simpl. split; [lia | reflexivity].
Qed.

(** C4 at the sample site, where the discovery does return. *)
Lemma discover_tasks_modules_starts_with_setup_witness :
  ∃ st,
    discover_tasks_modules (Sample.site None) Sample.importer = inr st
    ∧ (1 <= length (tasks_modules st))%nat
    ∧ head (tasks_modules st) = Some "django_dramatiq.setup".
Proof.
  eexists. split; [vm_compute; reflexivity |].
  apply (discover_tasks_modules_starts_with_setup
           (Sample.site None) Sample.importer).
  vm_compute. reflexivity.
Defined.

Section Contributions.

Context (imp : Importer) (I : gset string).

Lemma accepted_spec subs s :
  In s (accepted I subs) ↔ In s subs ∧ is_ignored_module I s = false.
Proof.
  unfold accepted. rewrite filter_In, negb_true_iff. reflexivity.
Qed.

(** Everything the walk yields is strictly longer than the package name. *)
Lemma walk_packages_not_package search_path pkg :
  ¬ In pkg (walk_packages imp search_path (pkg +:+ ".")).
Proof.
  unfold walk_packages. rewrite in_map_iff. intros (n & E & _).
  apply (f_equal String.length) in E. rewrite !append_length in E.
  simpl in E. lia.
Qed.

Lemma visit_package st cand m search_path :
  is_ignored_module I (candidate_path cand) = false →
  import_module imp (candidate_path cand) = Some m →
  __path__ m = Some search_path →
  visit_candidate imp I st cand
  = inr (visit_submodules I
           (walk_packages imp search_path (__name__ m +:+ ".")) st).
Proof.
  destruct cand as [conf tm]. unfold visit_candidate, candidate_path. simpl.
  intros -> -> Hp. unfold _is_package, _get_submodules. now rewrite Hp.
Qed.

Lemma visit_plain_module st cand m :
  is_ignored_module I (candidate_path cand) = false →
  import_module imp (candidate_path cand) = Some m →
  __path__ m = None →
  visit_candidate imp I st cand
  = inr (append_module (candidate_path cand)
           (write (DiscoveredLine (candidate_path cand)) st)).
Proof.
  destruct cand as [conf tm]. unfold visit_candidate, candidate_path. simpl.
  intros -> -> Hp. unfold _is_package. now rewrite Hp.
Qed.

End Contributions.

(** C5, as stated, fails: the candidate [shop.tasks.tasks] is not ignored
    and resolves to a package, and the discovered list holds its own path,
    enumerated as a descendant of the package candidate [shop.tasks]. *)
Lemma package_path_never_listed_counterexample :
  ¬ (∀ dj imp st cand m search_path,
       discover_tasks_modules dj imp = inr st →
       In cand (pair_app_configs dj (task_module_names dj)) →
       is_ignored_module (ignored_modules dj) (candidate_path cand) = false →
       import_module imp (candidate_path cand) = Some m →
       __path__ m = Some search_path →
       ¬ In (candidate_path cand) (tasks_modules st)).
Proof.
  intros H.
  apply (H Sample.nested_site Sample.nested_importer
           {| stdout := [DiscoveredLine "shop.tasks.tasks";
                         DiscoveredLine "shop.tasks.tasks.email";
                         DiscoveredLine "shop.tasks.tasks.email"];
              tasks_modules := ["django_dramatiq.setup"; "shop.tasks.tasks";
                                "shop.tasks.tasks.email";
                                "shop.tasks.tasks.email"] |}
           (Sample.shop_tasks, "tasks")
           (Sample.package "shop.tasks.tasks" ["/srv/shop/tasks/tasks"])
           ["/srv/shop/tasks/tasks"]).
  - vm_compute. reflexivity.
  - vm_compute. tauto.
  - vm_compute. reflexivity.
  - vm_compute. reflexivity.
  - reflexivity.
  - vm_compute. tauto.
Qed.

(** C5, amended: for a candidate that is not ignored and resolves to a
    package, the turn of the loop appends exactly the package's enumerated descendants
    that pass the ignore matcher one by one, in enumeration order, and the
    package itself is not among them; for one that resolves to a plain
    module it appends exactly the candidate path.  The returned list is the
    seed followed by these contributions, candidate after candidate, so a
    package's own path stands in it only where a candidate with another
    path contributed it.  A
    package [app.tasks] with [app.tasks.email] and [app.tasks.sms], under
    the ignore set [{"app.tasks.sms"}], gives
    [["django_dramatiq.setup"; "app.tasks.email"]]. *)
Theorem package_contributes_descendants :
  (∀ imp I st cand m search_path,
     is_ignored_module I (candidate_path cand) = false →
     import_module imp (candidate_path cand) = Some m →
     __path__ m = Some search_path →
     ∃ st',
       visit_candidate imp I st cand = inr st'
       ∧ tasks_modules st'
         = tasks_modules st
           ++ accepted I (walk_packages imp search_path (__name__ m +:+ "."))
       ∧ ¬ In (__name__ m)
             (accepted I (walk_packages imp search_path (__name__ m +:+ ".")))
       ∧ (__name__ m = candidate_path cand →
          ¬ In (candidate_path cand)
              (accepted I
                 (walk_packages imp search_path (__name__ m +:+ ".")))))
  ∧ (∀ imp I st cand m,
       is_ignored_module I (candidate_path cand) = false →
       import_module imp (candidate_path cand) = Some m →
       __path__ m = None →
       ∃ st',
         visit_candidate imp I st cand = inr st'
         ∧ tasks_modules st' = tasks_modules st ++ [candidate_path cand])
  ∧ (∀ I submodules s,
       In s (accepted I submodules)
       ↔ In s submodules ∧ is_ignored_module I s = false)
  ∧ (∀ dj imp st,
       discover_tasks_modules dj imp = inr st →
       tasks_modules st
       = "django_dramatiq.setup"
         :: flat_map (contribution imp (ignored_modules dj))
                     (pair_app_configs dj (task_module_names dj)))
  ∧ (∀ dj imp st cand m search_path,
       discover_tasks_modules dj imp = inr st →
       is_ignored_module (ignored_modules dj) (candidate_path cand) = false →
       import_module imp (candidate_path cand) = Some m →
       __path__ m = Some search_path →
       __name__ m = candidate_path cand →
       In (candidate_path cand) (tasks_modules st) →
       candidate_path cand = "django_dramatiq.setup"
       ∨ ∃ cand',
           In cand' (pair_app_configs dj (task_module_names dj))
           ∧ candidate_path cand' ≠ candidate_path cand
           ∧ In (candidate_path cand)
                (contribution imp (ignored_modules dj) cand'))
  ∧ (∃ st,
       discover_tasks_modules
         (Sample.site (Some ["app.tasks.sms"])) Sample.importer = inr st
       ∧ tasks_modules st = ["django_dramatiq.setup"; "app.tasks.email"]).
Proof.
  split; [| split; [| split; [| split; [| split]]]].
  - intros imp I st cand m search_path Hign Himp Hpath.
    eexists. split; [exact (visit_package imp I st cand m _ Hign Himp Hpath) |].
    assert (Hown : ¬ In (__name__ m)
        (accepted I (walk_packages imp search_path (__name__ m +:+ ".")))).
    { intros [Hin _]%accepted_spec.
      exact (walk_packages_not_package imp _ _ Hin). }
    split; [apply visit_submodules_modules | split; [exact Hown |]].
    intros <-. exact Hown.
  - intros imp I st cand m Hign Himp Hpath.
    eexists. split; [exact (visit_plain_module imp I st cand m Hign Himp Hpath) |].
    reflexivity.
  - intros I submodules s. apply accepted_spec.
  - exact discover_modules.
  - intros dj imp st cand m search_path Hst Hign Himp Hpath Hname Hin.
    rewrite (discover_modules _ _ _ Hst) in Hin.
    destruct Hin as [<- | Hin]; [now left | right].
    apply in_flat_map in Hin as (cand' & Hcand' & Hin').
    exists cand'. split; [exact Hcand' |]. split; [| exact Hin'].
    intros Hsame. unfold contribution in Hin'.
    rewrite Hsame, Hign, Himp, Hpath in Hin'.
    apply accepted_spec in Hin' as [Hwalk _]. rewrite <- Hname in Hwalk.
    exact (walk_packages_not_package imp _ _ Hwalk).
  - eexists. split; vm_compute; reflexivity.
Qed.

(** The hypotheses of C5 at the sample package [app.tasks] and at the
    plain module [app.tasks]. *)
Lemma package_contributes_descendants_witness :
  (∃ st',
     visit_candidate Sample.importer {["app.tasks.sms"]}
       {| stdout := []; tasks_modules := ["django_dramatiq.setup"] |}
       (Sample.app, "tasks") = inr st'
     ∧ tasks_modules st' = ["django_dramatiq.setup"; "app.tasks.email"])
  ∧ (∃ st',
       visit_candidate Sample.flat_importer ∅
         {| stdout := []; tasks_modules := ["django_dramatiq.setup"] |}
         (Sample.app, "tasks") = inr st'
       ∧ tasks_modules st' = ["django_dramatiq.setup"; "app.tasks"]).
Proof.
  destruct package_contributes_descendants as (Hpkg & Hplain & _).
  split.
  - destruct (Hpkg Sample.importer {["app.tasks.sms"]}
                {| stdout := []; tasks_modules := ["django_dramatiq.setup"] |}
                (Sample.app, "tasks")
                (Sample.package "app.tasks" ["/srv/app/tasks"])
                ["/srv/app/tasks"])
      as (st' & Hst & Hmods & _); [vm_compute; reflexivity .. |].
    exists st'. split; [exact Hst |]. rewrite Hmods. vm_compute. reflexivity.
  - destruct (Hplain Sample.flat_importer ∅
                {| stdout := []; tasks_modules := ["django_dramatiq.setup"] |}
                (Sample.app, "tasks") (Sample.plain "app.tasks"))
      as (st' & Hst & Hmods); [vm_compute; reflexivity .. |].
    exists st'. split; [exact Hst |]. rewrite Hmods. vm_compute. reflexivity.
Defined.

(** ** The project's own tasks module *)

Lemma in_pair_app_configs dj names conf tm :
  In (conf, tm) (pair_app_configs dj names)
  ↔ In conf (get_app_configs dj)
    ∧ (if String.eqb (name conf) "django_dramatiq" then tm = "tasks"
       else In tm names ∧ module_has_submodule dj (module conf) tm = true).
Proof.
  unfold pair_app_configs. rewrite in_flat_map. split.
  - intros (conf' & Hin & Hpair).
    destruct (String.eqb (name conf') "django_dramatiq") eqn:E.
    + destruct Hpair as [[= <- <-] | []]. now rewrite E.
    + apply in_map_iff in Hpair as (tm' & [= <- <-] & Htm).
      apply filter_In in Htm. now rewrite E.
  - intros [Hin Hcase]. exists conf. split; [exact Hin |].
    destruct (String.eqb (name conf) "django_dramatiq").
    + subst tm. now left.
    + apply in_map_iff. exists tm. split; [reflexivity |].
      now apply filter_In.
Qed.

(** C3, as stated, fails: with both applications installed and
    ["django_dramatiq.tasks"] listed in [DRAMATIQ_IGNORED_MODULES], the
    discovery returns a list without the project's own tasks module. *)
Lemma own_tasks_always_found_counterexample :
  ¬ (∀ dj imp conf st,
       In conf (get_app_configs dj) →
       name conf = "django_dramatiq" →
       discover_tasks_modules dj imp = inr st →
       In "django_dramatiq.tasks" (tasks_modules st)).
Proof.
  intros H.
  specialize (H (Sample.own_site (Some ["django_dramatiq.tasks"]))
                Sample.importer Sample.django_dramatiq
                {| stdout := [IgnoredLine "django_dramatiq.tasks"];
                   tasks_modules := ["django_dramatiq.setup"] |}).
  destruct H as [E | []].
  - now left.
  - reflexivity.
  - vm_compute. reflexivity.
  - discriminate E.
Qed.

(** C3, amended: whatever the configured task-module names, the application
    named ["django_dramatiq"] is paired with ["tasks"] and with nothing
    else; and whenever the discovery returns, everything this pair
    contributes is in the list: ["django_dramatiq.tasks"] itself when it is
    not matched by the ignore patterns and resolves to a plain module. *)
Theorem own_tasks_found_unless_ignored dj imp conf :
  In conf (get_app_configs dj) →
  name conf = "django_dramatiq" →
  (∀ names,
     In (conf, "tasks") (pair_app_configs dj names)
     ∧ ∀ tm, In (conf, tm) (pair_app_configs dj names) → tm = "tasks")
  ∧ (∀ st s,
       discover_tasks_modules dj imp = inr st →
       In s (contribution imp (ignored_modules dj) (conf, "tasks")) →
       In s (tasks_modules st))
  ∧ (∀ st m,
       discover_tasks_modules dj imp = inr st →
       is_ignored_module (ignored_modules dj) "django_dramatiq.tasks" = false →
       import_module imp "django_dramatiq.tasks" = Some m →
       __path__ m = None →
       In "django_dramatiq.tasks" (tasks_modules st)).
Proof.
  intros Hin Hname.
  assert (Hpair : ∀ names, In (conf, "tasks") (pair_app_configs dj names)).
  { intros names. apply in_pair_app_configs. rewrite Hname. now split. }
  assert (Hall : ∀ st s,
             discover_tasks_modules dj imp = inr st →
             In s (contribution imp (ignored_modules dj) (conf, "tasks")) →
             In s (tasks_modules st)).
  { intros st s Hst Hs. rewrite (discover_modules _ _ _ Hst). right.
    apply in_flat_map. exists (conf, "tasks"). split; [apply Hpair | exact Hs]. }
  split; [| split; [exact Hall |]].
  - intros names. split; [apply Hpair |].
    intros tm [_ Htm]%in_pair_app_configs. now rewrite Hname in Htm.
  - intros st m Hst Hign Himp Hpath. apply (Hall st _ Hst).
    unfold contribution, candidate_path. simpl. rewrite Hname.
    change ("django_dramatiq" +:+ "." +:+ "tasks") with "django_dramatiq.tasks".
    rewrite Hign, Himp, Hpath. now left.
Qed.

(** The amended C3 where the task modules are configured to be called
    [jobs] and nothing is ignored. *)
Lemma own_tasks_found_unless_ignored_witness :
  ∃ st,
    discover_tasks_modules (Sample.own_site None) Sample.importer = inr st
    ∧ In "django_dramatiq.tasks" (tasks_modules st).
Proof.
  eexists. split; [vm_compute; reflexivity |].
  destruct (own_tasks_found_unless_ignored
              (Sample.own_site None) Sample.importer Sample.django_dramatiq)
    as (_ & _ & Hfound).
  - now left.
  - reflexivity.
  - apply (Hfound _ (Sample.plain "django_dramatiq.tasks"));
      vm_compute; reflexivity.
Defined.

(** ** The argument vector on sample command lines *)

Example process_args_bare :
  process_args (add_arguments Sample.host Sample.bare) ["django_dramatiq.setup"]
  = ["dramatiq"; "--path"; "."; "--processes"; "2"; "--threads"; "4";
     "--worker-shutdown-timeout"; "600000"; "django_dramatiq.setup"].
Proof. vm_compute. reflexivity. Qed.

Example process_args_busy :
  process_args (add_arguments Sample.host Sample.busy)
    ["django_dramatiq.setup"; "app.tasks"]
  = ["dramatiq"; "--path"; "."; "--processes"; "3"; "--threads"; "4";
     "--worker-shutdown-timeout"; "600000";
     "--watch"; "."; "--watch-use-polling";
     "--fork-function"; "a.f"; "--fork-function"; "b.g";
     "-v"; "-v";
     "django_dramatiq.setup"; "app.tasks";
     "--queues"; "default"; "mail";
     "--pid-file"; "w.pid";
     "--skip-logging"].
Proof. vm_compute. reflexivity. Qed.

Example process_args_polling_only :
  process_args (add_arguments Sample.host Sample.polling_only)
    ["django_dramatiq.setup"]
  = process_args (add_arguments Sample.host Sample.bare)
      ["django_dramatiq.setup"].
Proof. vm_compute. reflexivity. Qed.

Example handle_posix :
  handle (Sample.site None) Sample.flat_importer Sample.host
    (add_arguments Sample.host Sample.bare)
  = ( [DiscoveredLine "app.tasks";
       RunningLine
         ("dramatiq --path . --processes 2 --threads 4 "
          +:+ "--worker-shutdown-timeout 600000 django_dramatiq.setup app.tasks")],
      Execvp "/venv/bin/dramatiq"
        ["dramatiq"; "--path"; "."; "--processes"; "2"; "--threads"; "4";
         "--worker-shutdown-timeout"; "600000";
         "django_dramatiq.setup"; "app.tasks"] ).
Proof. vm_compute. reflexivity. Qed.

(** ** The argument vector *)

Section ArgumentVector.

Implicit Types (o : Options) (mods : list string).

Lemma watch_args_spec o : watch_args o = Spec.watch_directory o.
Proof.
  unfold watch_args, Spec.watch_directory, Spec.given.
  destruct (watch_dir o) as [[|c dir]|]; simpl; try reflexivity.
  destruct (use_polling_watcher o); reflexivity.
Qed.

Lemma forks_loop fs acc :
  foldl (fun acc function => acc ++ ["--fork-function"; function]) acc fs
  = acc ++ flat_map (fun function => ["--fork-function"; function]) fs.
Proof.
  revert acc; induction fs as [|f fs IH]; intros acc; simpl.
  - now rewrite app_nil_r.
  - rewrite IH, <- app_assoc. reflexivity.
Qed.

Lemma forks_args_spec o : forks_args o = Spec.fork_functions o.
Proof.
  unfold forks_args, Spec.fork_functions.
  destruct (forks o) as [|f fs] eqn:E; [reflexivity |].
  now rewrite forks_loop.
Qed.

Lemma list_mul_singleton {A} (x : A) n :
  Py.list_mul [x] n = replicate (Z.to_nat n) x.
Proof.
  unfold Py.list_mul. induction (Z.to_nat n) as [|k IH]; simpl; [reflexivity |].
  now f_equal.
Qed.

Lemma verbosity_args_spec o : verbosity_args o = Spec.verbosity_flags o.
Proof. apply list_mul_singleton. Qed.

(** The vector, part after part. *)
Lemma process_args_parts o mods :
  process_args o mods
  = [executable_name o]
    ++ Spec.import_paths o
    ++ Spec.process_count o
    ++ Spec.thread_count o
    ++ Spec.shutdown_timeout o
    ++ Spec.watch_directory o
    ++ Spec.fork_functions o
    ++ Spec.verbosity_flags o
    ++ mods
    ++ Spec.queue_filter o
    ++ Spec.pid_file_path o
    ++ Spec.log_file_path o
    ++ Spec.skip_logging_flag o.
Proof.
  unfold process_args.
  rewrite watch_args_spec, forks_args_spec, verbosity_args_spec.
  unfold Spec.queue_filter, Spec.pid_file_path, Spec.log_file_path,
    Spec.skip_logging_flag, Spec.given, Spec.import_paths, Spec.process_count,
    Spec.thread_count, Spec.shutdown_timeout.
  destruct (queues o) as [[|q qs]|], (pid_file o) as [[|c1 pf]|],
    (log_file o) as [[|c2 lf]|], (skip_logging o);
    cbn [app]; repeat (rewrite <- app_assoc; cbn [app]);
    rewrite ?app_nil_r; reflexivity.
Qed.

End ArgumentVector.

(** ** Which strings the vector holds *)

Section Membership.

Implicit Types (o : Options) (mods : list string) (x : string).

(** A number is never written with two leading dashes. *)
Lemma str_not_long_flag n s : Py.str n ≠ String "-" (String "-" s).
Proof.
  unfold Py.str, NilZero.string_of_int, NilZero.string_of_uint.
  destruct (Z.to_int n) as [d|d]; destruct d; simpl; discriminate.
Qed.

Lemma in_replicate {A} (x y : A) n : In x (replicate n y) → x = y.
Proof. induction n as [|n IH]; simpl; [tauto | intros [H | H]; auto]. Qed.

Lemma in_process_args x o mods :
  In x (process_args o mods)
  ↔ x = executable_name o
    ∨ In x (Spec.import_paths o)
    ∨ In x (Spec.process_count o)
    ∨ In x (Spec.thread_count o)
    ∨ In x (Spec.shutdown_timeout o)
    ∨ In x (Spec.watch_directory o)
    ∨ In x (Spec.fork_functions o)
    ∨ In x (Spec.verbosity_flags o)
    ∨ In x mods
    ∨ In x (Spec.queue_filter o)
    ∨ In x (Spec.pid_file_path o)
    ∨ In x (Spec.log_file_path o)
    ∨ In x (Spec.skip_logging_flag o).
Proof.
  rewrite process_args_parts, !in_app_iff. simpl. intuition congruence.
Qed.

(** A string of the vector that was not supplied as a value is the
    executable name, a number, a fixed flag, part of the watch segment, or
    the queue flag in front of a non-empty queue list. *)
Lemma emitted_not_supplied x o mods :
  In x (process_args o mods) →
  ¬ In x (Spec.supplied_values o mods) →
  In x ["dramatiq"; "dramatiq-gevent"; "--path"; "--processes"; "--threads";
        "--worker-shutdown-timeout"; "--fork-function"; "-v"; "--pid-file";
        "--log-file"; "--skip-logging"]
  ∨ (∃ n, x = Py.str n)
  ∨ In x (Spec.watch_directory o)
  ∨ (x = "--queues" ∧ ∃ q qs, queues o = Some (q :: qs)).
Proof.
  unfold Spec.supplied_values. rewrite !in_app_iff.
  intros Hin Hsup. apply in_process_args in Hin.
  destruct Hin as [H|[H|[H|[H|[H|[H|[H|[H|[H|[H|[H|[H|H]]]]]]]]]]]].
  - left. subst x. unfold executable_name.
    destruct (use_gevent o); in_literal.
  - destruct H as [<- | H]; [left; in_literal | tauto].
  - destruct H as [<- | [<- | []]]; [left; in_literal | right; left; eauto].
  - destruct H as [<- | [<- | []]]; [left; in_literal | right; left; eauto].
  - destruct H as [<- | [<- | []]]; [left; in_literal | right; left; eauto].
  - tauto.
  - apply in_flat_map in H as (f & Hf & [<- | [<- | []]]);
      [left; in_literal | tauto].
  - apply in_replicate in H. subst x. left. in_literal.
  - tauto.
  - unfold Spec.queue_filter in H.
    destruct (queues o) as [[|q qs]|] eqn:E;
      [destruct H | destruct H as [<- | H] | destruct H].
    + right. right. right. split; [reflexivity | eauto].
    + exfalso. apply Hsup. right. right. right. left. exact H.
  - unfold Spec.pid_file_path, Spec.given in H.
    destruct (pid_file o) as [[|c f]|];
      [destruct H | destruct H as [<- | [<- | []]] | destruct H].
    + left. in_literal.
    + exfalso. apply Hsup. simpl. tauto.
  - unfold Spec.log_file_path, Spec.given in H.
    destruct (log_file o) as [[|c f]|];
      [destruct H | destruct H as [<- | [<- | []]] | destruct H].
    + left. in_literal.
    + exfalso. apply Hsup. simpl. tauto.
  - unfold Spec.skip_logging_flag in H.
    destruct (skip_logging o); [destruct H as [<- | []] | destruct H].
    left. in_literal.
Qed.

Lemma watch_directory_unset o :
  watch_dir o = None ∨ watch_dir o = Some "" → Spec.watch_directory o = [].
Proof. unfold Spec.watch_directory. now intros [-> | ->]. Qed.

Lemma watch_directory_set o x :
  In x (Spec.watch_directory o) →
  ∃ dir, dir ≠ "" ∧ watch_dir o = Some dir
         ∧ In "--watch" (Spec.watch_directory o)
         ∧ (x = "--watch" ∨ x = dir
            ∨ (x = "--watch-use-polling" ∧ use_polling_watcher o = true)).
Proof.
  unfold Spec.watch_directory, Spec.given.
  destruct (watch_dir o) as [[|c dir]|]; [intros [] | | intros []].
  intros H. exists (String c dir). split; [discriminate |].
  split; [reflexivity |]. split; [now left |].
  destruct H as [<- | [<- | H]]; [tauto | tauto |].
  destruct (use_polling_watcher o); [destruct H as [<- | []] | destruct H].
  tauto.
Qed.

End Membership.

(** ** The argument vector: the claims *)

(** C9: the vector starts with the name of the executable and then holds,
    in this order: the import paths, the process count, the thread count,
    the shutdown timeout, the watch directory with the polling flag behind
    it, one flag and value per fork function in input order, one ["-v"]
    per verbosity level above 1, the discovered modules, the queue filter,
    the pid file, the log file and the skip-logging flag. *)
Theorem process_args_order (o : Options) (mods : list string) :
  process_args o mods
  = [executable_name o]
    ++ ("--path" :: path o)
    ++ ["--processes"; Py.str (processes o)]
    ++ ["--threads"; Py.str (threads o)]
    ++ ["--worker-shutdown-timeout"; Py.str (worker_shutdown_timeout o)]
    ++ Spec.watch_directory o
    ++ flat_map (fun function => ["--fork-function"; function]) (forks o)
    ++ replicate (Z.to_nat (verbosity o - 1)) "-v"
    ++ mods
    ++ Spec.queue_filter o
    ++ Spec.pid_file_path o
    ++ Spec.log_file_path o
    ++ Spec.skip_logging_flag o.
Proof. exact (process_args_parts o mods). Qed.

(** C7: the polling flag is in the watch segment only behind ["--watch"];
    with no watch directory (none, or an empty one) the segment is empty and
    the polling toggle changes nothing in the vector; and when
    ["--watch-use-polling"] stands in the vector without having been
    supplied as a value, a watch directory is set and ["--watch"] stands in
    the vector too. *)
Theorem polling_flag_needs_watch_directory :
  (∀ o, In "--watch-use-polling" (watch_args o) → In "--watch" (watch_args o))
  ∧ (∀ o mods b,
       watch_dir o = None ∨ watch_dir o = Some "" →
       watch_args o = []
       ∧ process_args (with_polling b o) mods = process_args o mods)
  ∧ (∀ o mods,
       ¬ In "--watch-use-polling" (Spec.supplied_values o mods) →
       In "--watch-use-polling" (process_args o mods) →
       In "--watch" (process_args o mods)
       ∧ ∃ dir, dir ≠ "" ∧ watch_dir o = Some dir).
Proof.
  split; [| split].
  - intros o. rewrite watch_args_spec. intros H.
    apply watch_directory_set in H as (dir & _ & _ & Hw & _). exact Hw.
  - intros o mods b Hunset. split.
    + rewrite watch_args_spec. now apply watch_directory_unset.
    + rewrite !process_args_parts.
      assert (Hw : Spec.watch_directory (with_polling b o) = []).
      { apply watch_directory_unset. exact Hunset. }
      rewrite Hw, (watch_directory_unset o Hunset). reflexivity.
  - intros o mods Hsup Hin.
    destruct (emitted_not_supplied _ _ _ Hin Hsup)
      as [Hfix | [[n Hn] | [Hw | [Hq _]]]].
    + simpl in Hfix. repeat (destruct Hfix as [Hfix | Hfix]; [discriminate |]).
      destruct Hfix.
    + symmetry in Hn. destruct (str_not_long_flag _ _ Hn).
    + apply watch_directory_set in Hw as (dir & Hne & Hdir & Hwatch & _).
      split; [| eauto]. apply in_process_args. tauto.
    + discriminate Hq.
Qed.

(** C7 at [--reload-use-polling] alone and at [--reload
    --reload-use-polling]. *)
Lemma polling_flag_needs_watch_directory_witness :
  process_args
    (with_polling false (add_arguments Sample.host Sample.polling_only))
    ["django_dramatiq.setup"]
  = process_args (add_arguments Sample.host Sample.polling_only)
      ["django_dramatiq.setup"]
  ∧ In "--watch"
      (process_args (add_arguments Sample.host Sample.busy)
         ["django_dramatiq.setup"]).
Proof.
  destruct polling_flag_needs_watch_directory as (_ & Hunset & Hset).
  split.
  - apply (Hunset (add_arguments Sample.host Sample.polling_only)).
    left. reflexivity.
  - apply (Hset (add_arguments Sample.host Sample.busy)).
    + vm_compute. intuition discriminate.
    + vm_compute. intuition.
Defined.

(** C10: an empty queue list is treated like a missing one.  The two give
    the same vector; with either, the vector goes from the discovered
    modules straight to the pid file; and ["--queues"] is not in it unless
    it was supplied as a value of another option. *)
Theorem empty_queues_like_omitted :
  (∀ o mods,
     process_args (with_queues (Some []) o) mods
     = process_args (with_queues None o) mods)
  ∧ (∀ o mods,
       queues o = None ∨ queues o = Some [] →
       process_args o mods
       = [executable_name o]
         ++ ("--path" :: path o)
         ++ ["--processes"; Py.str (processes o)]
         ++ ["--threads"; Py.str (threads o)]
         ++ ["--worker-shutdown-timeout"; Py.str (worker_shutdown_timeout o)]
         ++ Spec.watch_directory o
         ++ Spec.fork_functions o
         ++ Spec.verbosity_flags o
         ++ mods
         ++ Spec.pid_file_path o
         ++ Spec.log_file_path o
         ++ Spec.skip_logging_flag o)
  ∧ (∀ o mods,
       queues o = None ∨ queues o = Some [] →
       watch_dir o ≠ Some "--queues" →
       ¬ In "--queues" (Spec.supplied_values o mods) →
       ¬ In "--queues" (process_args o mods)).
Proof.
  split; [| split].
  - intros o mods. reflexivity.
  - intros o mods Hq. rewrite process_args_parts.
    assert (Hnone : Spec.queue_filter o = []).
    { unfold Spec.queue_filter. now destruct Hq as [-> | ->]. }
    rewrite Hnone. reflexivity.
  - intros o mods Hq Hdir Hsup Hin.
    destruct (emitted_not_supplied _ _ _ Hin Hsup)
      as [Hfix | [[n Hn] | [Hw | [_ (q & qs & Hsome)]]]].
    + simpl in Hfix. repeat (destruct Hfix as [Hfix | Hfix]; [discriminate |]).
      destruct Hfix.
    + symmetry in Hn. destruct (str_not_long_flag _ _ Hn).
    + apply watch_directory_set in Hw
        as (dir & _ & Hsome & _ & [H | [H | [H _]]]); try discriminate H.
      subst dir. contradiction.
    + destruct Hq as [Hq | Hq]; congruence.
Qed.

(** C10 at [-Q] with no queue after it. *)
Lemma empty_queues_like_omitted_witness :
  ¬ In "--queues"
      (process_args (add_arguments Sample.host Sample.polling_only)
         ["django_dramatiq.setup"]).
Proof.
  destruct empty_queues_like_omitted as (_ & _ & Habsent).
  apply Habsent.
  - right. reflexivity.
  - discriminate.
  - vm_compute. intuition discriminate.
Defined.

(** ** Process and thread counts *)

(** C8: the process and thread counts placed in the vector are the flag
    value when the flag is given, otherwise the value of [DRAMATIQ_NPROCS]
    or [DRAMATIQ_NTHREADS] when it is set, otherwise the number of CPUs for
    the processes and 8 for the threads; they stand in the vector right
    behind the import paths. *)
Theorem counts_follow_precedence (h : Host) (cli : CommandLine)
    (mods : list string) :
  ((∀ v, cli_processes cli = Some v → processes (add_arguments h cli) = v)
   ∧ (∀ v, cli_processes cli = None →
           environ h "DRAMATIQ_NPROCS" = Some v →
           processes (add_arguments h cli) = v)
   ∧ (cli_processes cli = None →
      environ h "DRAMATIQ_NPROCS" = None →
      processes (add_arguments h cli) = cpu_count h))
  ∧ ((∀ v, cli_threads cli = Some v → threads (add_arguments h cli) = v)
     ∧ (∀ v, cli_threads cli = None →
             environ h "DRAMATIQ_NTHREADS" = Some v →
             threads (add_arguments h cli) = v)
     ∧ (cli_threads cli = None →
        environ h "DRAMATIQ_NTHREADS" = None →
        threads (add_arguments h cli) = 8))
  ∧ ∃ rest,
      process_args (add_arguments h cli) mods
      = [executable_name (add_arguments h cli); "--path"]
        ++ path (add_arguments h cli)
        ++ ["--processes";
            Py.str (Spec.precedence (cli_processes cli)
                      (environ h "DRAMATIQ_NPROCS") (cpu_count h));
            "--threads";
            Py.str (Spec.precedence (cli_threads cli)
                      (environ h "DRAMATIQ_NTHREADS") 8)]
        ++ rest.
Proof.
  assert (Hp : processes (add_arguments h cli)
               = Spec.precedence (cli_processes cli)
                   (environ h "DRAMATIQ_NPROCS") (cpu_count h)).
  { simpl. unfold NPROCS, getenv_int, Spec.precedence.
    destruct (cli_processes cli), (environ h "DRAMATIQ_NPROCS"); reflexivity. }
  assert (Ht : threads (add_arguments h cli)
               = Spec.precedence (cli_threads cli)
                   (environ h "DRAMATIQ_NTHREADS") 8).
  { simpl. unfold NTHREADS, getenv_int, Spec.precedence.
    destruct (cli_threads cli), (environ h "DRAMATIQ_NTHREADS"); reflexivity. }
  split; [| split].
  - rewrite Hp. repeat split.
    + now intros v ->.
    + now intros v -> ->.
    + now intros -> ->.
  - rewrite Ht. repeat split.
    + now intros v ->.
    + now intros v -> ->.
    + now intros -> ->.
  - eexists. rewrite process_args_parts, <- Hp, <- Ht.
    unfold Spec.import_paths, Spec.process_count, Spec.thread_count.
    cbn [app]. reflexivity.
Qed.

(** C8 on the sample host (two CPUs, [DRAMATIQ_NTHREADS=4]) with [-p 3]
    and with no flag. *)
Lemma counts_follow_precedence_witness :
  processes (add_arguments Sample.host Sample.busy) = 3
  ∧ processes (add_arguments Sample.host Sample.bare) = 2
  ∧ threads (add_arguments Sample.host Sample.bare) = 4.
Proof.
  split; [| split].
  - destruct (counts_follow_precedence Sample.host Sample.busy [])
      as ((Hflag & _) & _).
    apply Hflag. reflexivity.
  - destruct (counts_follow_precedence Sample.host Sample.bare [])
      as ((_ & _ & Hdefault) & _).
    apply Hdefault; reflexivity.
  - destruct (counts_follow_precedence Sample.host Sample.bare [])
      as (_ & (_ & Henv & _) & _).
    apply Henv; reflexivity.
Defined.

(** ** Hand-off *)

(** Where process images can be replaced, [handle] ends in [os.execvp]
    with the resolved executable and the whole vector. *)
Lemma handle_posix_execs dj imp h o st :
  String.eqb (platform h) "win32" = false →
  discover_tasks_modules dj imp = inr st →
  (handle dj imp h o).2
  = Execvp (_resolve_executable h (executable_name o))
           (process_args o (tasks_modules st)).
Proof. unfold handle. now intros -> ->. Qed.

(** On [win32] the child gets the resolved executable and the arguments
    behind the executable name, and this process then exits with status
    1, whatever the child returned. *)
Lemma handle_win32_exits_one dj imp h o st :
  platform h = "win32" →
  discover_tasks_modules dj imp = inr st →
  (handle dj imp h o).2
  = ChildThenExit
      (_resolve_executable h (executable_name o)
       :: tail (process_args o (tasks_modules st)))
      1.
Proof. unfold handle. now intros -> ->. Qed.

(** C2 fails on the code: on the sample Windows host the child is started
    with the resolved executable and the computed arguments and returns 0,
    and [handle] exits with status 1. *)
Theorem handle_win32_ignores_child_status :
  handle (Sample.site None) Sample.flat_importer Sample.win_host
    (add_arguments Sample.win_host Sample.bare)
  = ( [DiscoveredLine "app.tasks";
       RunningLine
         ("dramatiq --path . --processes 2 --threads 8 "
          +:+ "--worker-shutdown-timeout 600000 django_dramatiq.setup app.tasks")],
      ChildThenExit
        ["C:\venv\Scripts\dramatiq"; "--path"; "."; "--processes"; "2";
         "--threads"; "8"; "--worker-shutdown-timeout"; "600000";
         "django_dramatiq.setup"; "app.tasks"]
        1 )
  ∧ returncode
      (subprocess_run Sample.win_host
         ["C:\venv\Scripts\dramatiq"; "--path"; "."; "--processes"; "2";
          "--threads"; "8"; "--worker-shutdown-timeout"; "600000";
          "django_dramatiq.setup"; "app.tasks"])
    = 0.
Proof. split; vm_compute; reflexivity. Qed.

(** * Further properties of the command *)

(** ** Resolving the executable (lines 228-235) *)

(** X1: [_resolve_executable] returns the bare name or an existing file,
    which is then the name joined to the directory of the interpreter or to
    its [Scripts] folder; the directory itself is tried first, [Scripts]
    only when the first is no file, and the bare name is the answer when the
    directory is empty or neither place holds the file. *)
Theorem resolve_executable_file_or_name (h : Host) (exec_name : string) :
  (_resolve_executable h exec_name = exec_name
   ∨ isfile h (_resolve_executable h exec_name) = true
     ∧ (_resolve_executable h exec_name
        = path_join h (dirname h (executable h)) exec_name
        ∨ _resolve_executable h exec_name
          = path_join h (path_join h (dirname h (executable h)) "Scripts")
              exec_name))
  ∧ (dirname h (executable h) = "" →
     _resolve_executable h exec_name = exec_name)
  ∧ (dirname h (executable h) ≠ "" →
     isfile h (path_join h (dirname h (executable h)) exec_name) = true →
     _resolve_executable h exec_name
     = path_join h (dirname h (executable h)) exec_name)
  ∧ (dirname h (executable h) ≠ "" →
     isfile h (path_join h (dirname h (executable h)) exec_name) = false →
     isfile h (path_join h (path_join h (dirname h (executable h)) "Scripts")
                 exec_name) = true →
     _resolve_executable h exec_name
     = path_join h (path_join h (dirname h (executable h)) "Scripts")
         exec_name)
  ∧ (isfile h (path_join h (dirname h (executable h)) exec_name) = false →
     isfile h (path_join h (path_join h (dirname h (executable h)) "Scripts")
                 exec_name) = false →
     _resolve_executable h exec_name = exec_name).
Proof.
  unfold _resolve_executable.
  destruct (dirname h (executable h)) as [|c bin] eqn:Ebin.
  - repeat split; intros; (reflexivity || congruence || now left).
  - simpl.
    destruct (isfile h (path_join h (String c bin) exec_name)) eqn:E1;
      [| destruct (isfile h (path_join h (path_join h (String c bin) "Scripts")
                              exec_name)) eqn:E2].
    + repeat split; intros; try (reflexivity || congruence).
      right. split; [exact E1 | now left].
    + repeat split; intros; try (reflexivity || congruence).
      right. split; [exact E2 | now right].
    + repeat split; intros; try (reflexivity || congruence). now left.
Qed.

Example resolve_executable_in_scripts :
  _resolve_executable Sample.win_host "dramatiq" = "C:\venv\Scripts\dramatiq"
  ∧ _resolve_executable Sample.win_host "dramatiq-gevent" = "dramatiq-gevent"
  ∧ _resolve_executable Sample.host "dramatiq" = "/venv/bin/dramatiq".
Proof. repeat split; vm_compute; reflexivity. Qed.

(** ** Discovery: when it returns, and how it fails *)

Section DiscoveryErrors.

Context (imp : Importer) (I : gset string).

Lemma visit_candidate_inr st cand st' :
  visit_candidate imp I st cand = inr st' → passable imp I cand.
Proof.
  destruct cand as [conf tm]. unfold visit_candidate, passable, candidate_path.
  simpl. destruct (is_ignored_module I _); [now left |].
  destruct (import_module imp _); [right; discriminate | discriminate].
Qed.

Lemma visit_candidates_inr cands st st' :
  visit_candidates imp I cands st = inr st' →
  ∀ cand, In cand cands → passable imp I cand.
Proof.
  revert st; induction cands as [|c cands IH]; intros st H cand; simpl in *.
  - intros [].
  - destruct (visit_candidate imp I st c) as [f|st1] eqn:E; [discriminate |].
    intros [<- | Hin]; [exact (visit_candidate_inr _ _ _ E) |].
    exact (IH _ H cand Hin).
Qed.

End DiscoveryErrors.

Section RaisingDiscovery.

Context (imp : RaisingImporter) (I : gset string).






End RaisingDiscovery.

(** Where imports fail only for want of the module and no walk raises,
    the discovery with every exception is the discovery above. *)
Lemma raising_agrees_with_importer (dj : Django) (imp : Importer) :
  Raising.discover_tasks_modules dj (Raising.of_importer imp)
  = discover_tasks_modules dj imp.
Proof.
  unfold Raising.discover_tasks_modules, discover_tasks_modules.
  generalize {| stdout := []; tasks_modules := ["django_dramatiq.setup"] |}.
  generalize (pair_app_configs dj
                (getattr (DRAMATIQ_AUTODISCOVER_MODULES dj) ["tasks"])).
  generalize (list_to_set (getattr (DRAMATIQ_IGNORED_MODULES dj) [])
              : gset string).
  intros I cands. induction cands as [|c cands IH]; intros st; simpl;
    [reflexivity |].
  assert (Hc : Raising.visit_candidate (Raising.of_importer imp) I st c
               = visit_candidate imp I st c).
  { destruct c as [conf tm]. unfold Raising.visit_candidate, visit_candidate.
    destruct (is_ignored_module I _); [reflexivity |]. simpl.
    destruct (import_module imp _) as [m|]; [| reflexivity].
    unfold Raising._get_submodules, _get_submodules, _is_package.
    destruct (__path__ m); reflexivity. }
  rewrite Hc. destruct (visit_candidate imp I st c); [reflexivity | apply IH].
Qed.




(** ** Discovery looks only at what is not ignored *)

Lemma visit_candidates_same_imports imp1 imp2 I cands st :
  (∀ cand m,
     In cand cands →
     is_ignored_module I (candidate_path cand) = false →
     import_module imp1 (candidate_path cand) = Some m →
     ∀ search_path, __path__ m = Some search_path →
       walk_names imp1 search_path = walk_names imp2 search_path) →
  (∀ cand,
     In cand cands →
     is_ignored_module I (candidate_path cand) = false →
     import_module imp1 (candidate_path cand)
     = import_module imp2 (candidate_path cand)) →
  visit_candidates imp1 I cands st = visit_candidates imp2 I cands st.
Proof.
  revert st; induction cands as [|c cands IH]; intros st Hwalk Himp; simpl;
    [reflexivity |].
  assert (Hc : visit_candidate imp1 I st c = visit_candidate imp2 I st c).
  { specialize (Hwalk c). specialize (Himp c (or_introl eq_refl)).
    destruct c as [conf tm]. unfold visit_candidate, candidate_path in *.
    simpl in *. destruct (is_ignored_module I _); [reflexivity |].
    rewrite <- (Himp eq_refl).
    destruct (import_module imp1 _) as [m|]; [| reflexivity].
    unfold _is_package, _get_submodules, walk_packages.
    destruct (__path__ m) as [search_path|] eqn:Ep; simpl; [| reflexivity].
    now rewrite (Hwalk m (or_introl eq_refl) eq_refl eq_refl search_path Ep). }
  rewrite Hc. destruct (visit_candidate imp2 I st c); [reflexivity |].
  apply IH.
  - intros cand m Hin. apply Hwalk. now right.
  - intros cand Hin. apply Himp. now right.
Qed.

(** X4: the discovery depends on the import system only through the
    candidates that are not ignored: two import systems that import these
    alike, and enumerate the packages among them alike, give the same
    report, the same list and the same exception, however they differ on
    ignored candidates. *)
Theorem discover_ignores_ignored_candidates (dj : Django)
    (imp1 imp2 : Importer) :
  (∀ cand,
     In cand (pair_app_configs dj (task_module_names dj)) →
     is_ignored_module (ignored_modules dj) (candidate_path cand) = false →
     import_module imp1 (candidate_path cand)
     = import_module imp2 (candidate_path cand)) →
  (∀ cand m,
     In cand (pair_app_configs dj (task_module_names dj)) →
     is_ignored_module (ignored_modules dj) (candidate_path cand) = false →
     import_module imp1 (candidate_path cand) = Some m →
     ∀ search_path, __path__ m = Some search_path →
       walk_names imp1 search_path = walk_names imp2 search_path) →
  discover_tasks_modules dj imp1 = discover_tasks_modules dj imp2.
Proof.
  intros Himp Hwalk. unfold discover_tasks_modules.
  now apply visit_candidates_same_imports.
Qed.

(** X4 with [app.tasks] ignored: it is a package for one import system and
    a plain module for the other. *)
Lemma discover_ignores_ignored_candidates_witness :
  discover_tasks_modules (Sample.site (Some ["app.tasks"])) Sample.importer
  = discover_tasks_modules (Sample.site (Some ["app.tasks"]))
      Sample.flat_importer.
Proof.
  apply discover_ignores_ignored_candidates.
  - intros cand [<- | []]. vm_compute. discriminate.
  - intros cand m [<- | []]. vm_compute. discriminate.
Defined.

(** ** The report and the list agree *)

Section Report.

Context (imp : Importer) (I : gset string).

Lemma discovered_names_app out1 out2 :
  discovered_names (out1 ++ out2)
  = discovered_names out1 ++ discovered_names out2.
Proof. apply flat_map_app. Qed.

Lemma extends_refl st : extends I st st [].
Proof.
  unfold extends. rewrite !app_nil_r. repeat split. constructor.
Qed.

Lemma extends_trans st1 st2 st3 a b :
  extends I st1 st2 a → extends I st2 st3 b → extends I st1 st3 (a ++ b).
Proof.
  intros (Ho1 & Hm1 & Hf1) (Ho2 & Hm2 & Hf2). repeat split.
  - now rewrite Ho2, Ho1, app_assoc.
  - now rewrite Hm2, Hm1, discovered_names_app, app_assoc.
  - apply Forall_app. now split.
Qed.

Lemma visit_submodules_report subs st :
  ∃ added, extends I st (visit_submodules I subs st) added
           ∧ length added = length subs.
Proof.
  unfold visit_submodules.
  revert st; induction subs as [|s subs IH]; intros st; simpl.
  - exists []. split; [apply extends_refl | reflexivity].
  - destruct (is_ignored_module I s) eqn:E.
    + destruct (IH (write (IgnoredLine s) st)) as (added & Hext & Hlen).
      exists (IgnoredLine s :: added). split; [| simpl; now rewrite Hlen].
      apply (extends_trans st (write (IgnoredLine s) st) _ [IgnoredLine s]);
        [| exact Hext].
      repeat split; simpl; [now rewrite app_nil_r |].
      constructor; [exact E | constructor].
    + destruct (IH (append_module s (write (DiscoveredLine s) st)))
        as (added & Hext & Hlen).
      exists (DiscoveredLine s :: added). split; [| simpl; now rewrite Hlen].
      apply (extends_trans st (append_module s (write (DiscoveredLine s) st))
               _ [DiscoveredLine s]); [| exact Hext].
      repeat split; simpl. constructor; [exact E | constructor].
Qed.

Lemma visit_candidate_report st cand st' :
  visit_candidate imp I st cand = inr st' → ∃ added, extends I st st' added.
Proof.
  destruct cand as [conf tm]. unfold visit_candidate.
  destruct (is_ignored_module I _) eqn:E.
  { intros [= <-]. eexists [_]. repeat split; simpl; [now rewrite app_nil_r |].
    constructor; [exact E | constructor]. }
  destruct (import_module imp _) as [m|]; [| discriminate].
  unfold _is_package, _get_submodules.
  destruct (__path__ m) as [search_path|]; simpl.
  - intros [= <-].
    destruct (visit_submodules_report
                (walk_packages imp search_path (__name__ m +:+ ".")) st)
      as (added & Hext & _).
    now exists added.
  - intros [= <-]. eexists [_]. repeat split; simpl.
    constructor; [exact E | constructor].
Qed.

Lemma visit_candidates_report cands st st' :
  visit_candidates imp I cands st = inr st' → ∃ added, extends I st st' added.
Proof.
  revert st; induction cands as [|c cands IH]; intros st; simpl.
  - intros [= <-]. exists []. apply extends_refl.
  - destruct (visit_candidate imp I st c) as [f|st1] eqn:E; [discriminate |].
    intros H. destruct (visit_candidate_report _ _ _ E) as (a & Ha).
    destruct (IH _ H) as (b & Hb).
    exists (a ++ b). exact (extends_trans _ _ _ _ _ Ha Hb).
Qed.

Lemma contribution_not_ignored cand m :
  In m (contribution imp I cand) → is_ignored_module I m = false.
Proof.
  unfold contribution.
  destruct (is_ignored_module I (candidate_path cand)) eqn:E; [intros [] |].
  destruct (import_module imp _) as [md|]; [| intros []].
  destruct (__path__ md).
  - now intros [_ H]%accepted_spec.
  - intros [<- | []]. exact E.
Qed.

End Report.

(** X5: the report and the list agree.  When the discovery returns, the
    list is the seed followed by the module names of the "Discovered" lines
    in the order they were written; every "Ignored" line names a module the
    patterns match and every "Discovered" line one they do not match. *)
Theorem discover_report_matches_list (dj : Django) (imp : Importer)
    (st : state) :
  discover_tasks_modules dj imp = inr st →
  tasks_modules st = "django_dramatiq.setup" :: discovered_names (stdout st)
  ∧ Forall (report_agrees (ignored_modules dj)) (stdout st).
Proof.
  intros H.
  destruct (visit_candidates_report imp (ignored_modules dj) _ _ _ H)
    as (added & Hout & Hmods & Hall).
  simpl in Hout, Hmods. rewrite Hout, Hmods. split; [reflexivity | exact Hall].
Qed.

(** X5 on the sample package with [app.tasks.sms] ignored. *)
Lemma discover_report_matches_list_witness :
  ∃ st,
    discover_tasks_modules (Sample.site (Some ["app.tasks.sms"]))
      Sample.importer = inr st
    ∧ tasks_modules st = "django_dramatiq.setup" :: discovered_names (stdout st)
    ∧ Forall (report_agrees
                (ignored_modules (Sample.site (Some ["app.tasks.sms"]))))
             (stdout st).
Proof.
  eexists. split; [vm_compute; reflexivity |].
  apply (discover_report_matches_list
           (Sample.site (Some ["app.tasks.sms"])) Sample.importer).
  vm_compute. reflexivity.
Defined.

(** X6: no module that the ignore patterns match is in the returned list,
    the seed apart: the seed is put there unchecked, and everything behind
    it has passed the matcher. *)
Theorem listed_modules_are_not_ignored (dj : Django) (imp : Importer)
    (st : state) :
  discover_tasks_modules dj imp = inr st →
  ∃ others,
    tasks_modules st = "django_dramatiq.setup" :: others
    ∧ ∀ m, In m others → is_ignored_module (ignored_modules dj) m = false.
Proof.
  intros H. eexists. split; [exact (discover_modules _ _ _ H) |].
  intros m (cand & _ & Hm)%in_flat_map.
  exact (contribution_not_ignored _ _ _ _ Hm).
Qed.

(** X6 where the patterns match the seed: it stays. *)
Lemma listed_modules_are_not_ignored_witness :
  is_ignored_module
    (ignored_modules (Sample.own_site (Some ["django_dramatiq.*"])))
    "django_dramatiq.setup" = true
  ∧ ∃ st others,
      discover_tasks_modules (Sample.own_site (Some ["django_dramatiq.*"]))
        Sample.importer = inr st
      ∧ tasks_modules st = "django_dramatiq.setup" :: others
      ∧ ∀ m, In m others →
          is_ignored_module
            (ignored_modules (Sample.own_site (Some ["django_dramatiq.*"])))
            m = false.
Proof.
  split; [vm_compute; reflexivity |].
  eexists.
  destruct (listed_modules_are_not_ignored
              (Sample.own_site (Some ["django_dramatiq.*"])) Sample.importer
              {| stdout := [IgnoredLine "django_dramatiq.tasks"];
                 tasks_modules := ["django_dramatiq.setup"] |})
    as (others & Hlist & Hall); [vm_compute; reflexivity |].
  exists others. split; [vm_compute; reflexivity |]. split; assumption.
Defined.

(** ** Which applications can make the discovery fail *)

(** X7: the existence of the project's own tasks module is not checked
    before it is imported: when the application [django_dramatiq] is
    installed and [django_dramatiq.tasks] is neither ignored nor importable,
    the discovery raises, whatever [module_has_submodule] says.  Any other
    application is paired only with configured names it has as submodules,
    so one that has none of them adds no candidate at all. *)
Theorem own_tasks_import_is_unguarded :
  (∀ dj imp conf,
     In conf (get_app_configs dj) →
     name conf = "django_dramatiq" →
     is_ignored_module (ignored_modules dj) "django_dramatiq.tasks" = false →
     import_module imp "django_dramatiq.tasks" = None →
     ∃ out e, discover_tasks_modules dj imp = inl (out, e))
  ∧ (∀ dj names conf,
       name conf ≠ "django_dramatiq" →
       (∀ tm, In tm names → module_has_submodule dj (module conf) tm = false) →
       ∀ tm, ¬ In (conf, tm) (pair_app_configs dj names)).
Proof.
  split.
  - intros dj imp conf Hin Hname Hign Himp.
    destruct (discover_tasks_modules dj imp) as [[out e]|st] eqn:E; [eauto |].
    exfalso.
    assert (Hpass : passable imp (ignored_modules dj) (conf, "tasks")).
    { apply (visit_candidates_inr imp (ignored_modules dj) _ _ _ E).
      apply in_pair_app_configs. rewrite Hname. now split. }
    unfold passable, candidate_path in Hpass. simpl in Hpass.
    rewrite Hname in Hpass.
    change ("django_dramatiq" +:+ "." +:+ "tasks")
      with "django_dramatiq.tasks" in Hpass.
    destruct Hpass as [H | H]; congruence.
  - intros dj names conf Hname Hnone tm [_ Hpair]%in_pair_app_configs.
    apply String.eqb_neq in Hname. rewrite Hname in Hpair.
    destruct Hpair as [Htm Hsub]. rewrite (Hnone tm Htm) in Hsub.
    discriminate Hsub.
Qed.

(** X7 where [django_dramatiq.tasks] cannot be imported, and for [app]
    with the task modules configured to be called [jobs]. *)
Lemma own_tasks_import_is_unguarded_witness :
  (∃ out e,
     discover_tasks_modules (Sample.own_site None) Sample.flat_importer
     = inl (out, e))
  ∧ ∀ tm, ¬ In (Sample.app, tm)
              (pair_app_configs (Sample.own_site None) ["jobs"]).
Proof.
  destruct own_tasks_import_is_unguarded as (Hown & Hother).
  split.
  - apply (Hown (Sample.own_site None) Sample.flat_importer
             Sample.django_dramatiq);
      [now left | reflexivity | vm_compute; reflexivity | reflexivity].
  - apply Hother; [discriminate |].
    intros tm [<- | []]. reflexivity.
Defined.

(** ** The matcher over sets of patterns *)

Lemma wildcard_hit_union (P Q : gset string) (m : string) :
  wildcard_hit (P ∪ Q) m ↔ wildcard_hit P m ∨ wildcard_hit Q m.
Proof.
  unfold wildcard_hit. split.
  - intros (p & rest & [H | H]%elem_of_union & ->); [left | right]; eauto.
  - intros [(p & rest & H & ->) | (p & rest & H & ->)];
      exists p, rest; (split; [| reflexivity]); apply elem_of_union; tauto.
Qed.

(** X8: ignoring under the union of two pattern sets is ignoring under one
    of them, so every pattern acts on its own and adding patterns never
    brings an ignored module back; the empty set ignores nothing. *)
Theorem is_ignored_module_union :
  (∀ (P Q : gset string) m,
     is_ignored_module (P ∪ Q) m
     = is_ignored_module P m || is_ignored_module Q m)
  ∧ (∀ (P Q : gset string) m,
       P ⊆ Q → is_ignored_module P m = true → is_ignored_module Q m = true)
  ∧ (∀ m, is_ignored_module ∅ m = false).
Proof.
  assert (Hunion : ∀ (P Q : gset string) m,
             is_ignored_module (P ∪ Q) m
             = is_ignored_module P m || is_ignored_module Q m).
  { intros P Q m. apply Bool.eq_iff_eq_true.
    rewrite orb_true_iff, !is_ignored_module_iff, wildcard_hit_union,
      elem_of_union.
    tauto. }
  split; [exact Hunion | split].
  - intros P Q m Hsub HP.
    rewrite <- (subseteq_union_1_L P Q Hsub), Hunion, HP. reflexivity.
  - intros m. reflexivity.
Qed.

(** X8 at [{"a.*"}] inside [{"a.*"; "b"}]. *)
Lemma is_ignored_module_union_witness :
  is_ignored_module {["a.*"; "b"]} "a.b.c" = true.
Proof.
  destruct is_ignored_module_union as (_ & Hmono & _).
  apply (Hmono {["a.*"]}); [| vm_compute; reflexivity].
  apply elem_of_subseteq. intros x Hx. apply elem_of_singleton in Hx.
  subst x. apply elem_of_union. left. now apply elem_of_singleton.
Defined.

(** X9: a wildcard pattern on its own never ignores a module whose name is
    no longer than the pattern's prefix; in particular ["p.*"] does not
    ignore [p] itself. *)
Theorem wildcard_spares_its_prefix (p m : string) :
  (String.length m <= String.length p)%nat →
  is_ignored_module {[p +:+ ".*"]} m = false.
Proof.
  intros Hlen. destruct (is_ignored_module _ m) eqn:E; [exfalso | reflexivity].
  apply is_ignored_module_iff in E as [Hin | (p' & rest & Hin & ->)];
    apply elem_of_singleton in Hin; apply (f_equal String.length) in Hin.
  - rewrite append_length in Hin. simpl in Hin. lia.
  - rewrite !append_length in Hin, Hlen. simpl in Hin, Hlen. lia.
Qed.

(** X9 for the package [app.tasks] under ["app.tasks.*"]. *)
Lemma wildcard_spares_its_prefix_witness :
  is_ignored_module {["app.tasks" +:+ ".*"]} "app.tasks" = false.
Proof. apply wildcard_spares_its_prefix. vm_compute. lia. Defined.

(** X10: a module that is ignored without being a member of the pattern
    set is ignored through a wildcard, and then everything below it is
    ignored too. *)
Theorem wildcard_ignores_whole_subtree (P : gset string) (m rest : string) :
  is_ignored_module P m = true →
  m ∉ P →
  is_ignored_module P (m +:+ "." +:+ rest) = true.
Proof.
  intros [Hin | (p & r & Hin & ->)]%is_ignored_module_iff Hnot;
    [contradiction |].
  apply is_ignored_module_iff. right.
  exists p, (r +:+ "." +:+ rest). split; [exact Hin |].
  now rewrite !append_assoc.
Qed.

(** X10 at ["a.b"] under [{"a.*"}]. *)
Lemma wildcard_ignores_whole_subtree_witness :
  is_ignored_module {["a.*"]} ("a.b" +:+ "." +:+ "c.d") = true.
Proof.
  apply wildcard_ignores_whole_subtree.
  - vm_compute. reflexivity.
  - intros H. apply elem_of_singleton in H. discriminate H.
Defined.

(** ** Parts of the argument vector *)

Lemma fork_pairs_injective (fs1 fs2 : list string) :
  flat_map (fun function => ["--fork-function"; function]) fs1
  = flat_map (fun function => ["--fork-function"; function]) fs2 →
  fs1 = fs2.
Proof.
  revert fs2; induction fs1 as [|f fs1 IH]; intros [|g fs2]; simpl;
    try discriminate; [reflexivity |].
  intros [= -> H]. f_equal. now apply IH.
Qed.

(** X11: the fork segment holds two strings per function and determines the
    functions: two option sets with the same segment have the same fork
    functions in the same order. *)
Theorem forks_args_determine_forks :
  (∀ o, length (forks_args o) = (2 * length (forks o))%nat)
  ∧ (∀ o1 o2, forks_args o1 = forks_args o2 → forks o1 = forks o2).
Proof.
  split.
  - intros o. rewrite forks_args_spec. unfold Spec.fork_functions.
    induction (forks o) as [|f fs IH]; simpl; [reflexivity | rewrite IH; lia].
  - intros o1 o2. rewrite !forks_args_spec. apply fork_pairs_injective.
Qed.

(** X11 at two command lines with the same fork functions. *)
Lemma forks_args_determine_forks_witness :
  forks (add_arguments Sample.host Sample.busy)
  = forks (add_arguments Sample.win_host Sample.busy).
Proof.
  destruct forks_args_determine_forks as (_ & Hinj).
  apply Hinj. reflexivity.
Defined.

(** X12: the verbosity segment holds [verbosity - 1] strings, all ["-v"]; a
    verbosity of 1 or less, negative ones included, gives none. *)
Theorem verbosity_args_count :
  (∀ o, length (verbosity_args o) = Z.to_nat (verbosity o - 1))
  ∧ (∀ o x, In x (verbosity_args o) → x = "-v")
  ∧ (∀ o, verbosity o <= 1 → verbosity_args o = [])
  ∧ (∀ o, 1 < verbosity o → In "-v" (verbosity_args o)).
Proof.
  split; [| split; [| split]].
  - intros o. rewrite verbosity_args_spec. apply length_replicate.
  - intros o x. rewrite verbosity_args_spec. apply in_replicate.
  - intros o Hv. rewrite verbosity_args_spec. unfold Spec.verbosity_flags.
    replace (Z.to_nat (verbosity o - 1)) with 0%nat by lia. reflexivity.
  - intros o Hv. rewrite verbosity_args_spec. unfold Spec.verbosity_flags.
    destruct (Z.to_nat (verbosity o - 1)) as [|n] eqn:E; [lia | now left].
Qed.

(** X12 at [-v 3] and at the default verbosity. *)
Lemma verbosity_args_count_witness :
  In "-v" (verbosity_args (add_arguments Sample.host Sample.busy))
  ∧ verbosity_args (add_arguments Sample.host Sample.bare) = [].
Proof.
  destruct verbosity_args_count as (_ & _ & Hnone & Hsome).
  split; [apply Hsome | apply Hnone]; vm_compute; congruence.
Defined.

(** ** The printed command line (line 154) *)

Lemma split_join_space (l : list string) :
  l ≠ [] →
  Forall (fun x => contains " " x = false) l →
  Py.split " " (Py.join " " l) = l.
Proof.
  induction l as [|x l IH]; [congruence |].
  intros _ Hall. inversion Hall as [|? ? Hx Hl]; subst.
  destruct l as [|y l].
  - simpl. now apply split_no_sep.
  - rewrite join_cons by discriminate.
    change (" " +:+ Py.join " " (y :: l))
      with (String " " (Py.join " " (y :: l))).
    rewrite split_app_sep, (split_no_sep _ _ Hx), IH by (discriminate || exact Hl).
    reflexivity.
Qed.

(** X13: the command line that [handle] prints is the vector joined by
    single spaces, with no quoting: splitting it at the spaces gives the
    vector back when no argument holds a space. *)
Theorem printed_command_line_round_trip (o : Options) (mods : list string) :
  Forall (fun x => contains " " x = false) (process_args o mods) →
  Py.split " " (Py.join " " (process_args o mods)) = process_args o mods.
Proof.
  apply split_join_space. rewrite process_args_parts. discriminate.
Qed.

(** X13 at the sample command line with many flags. *)
Lemma printed_command_line_round_trip_witness :
  Py.split " "
    (Py.join " " (process_args (add_arguments Sample.host Sample.busy)
                    ["django_dramatiq.setup"; "app.tasks"]))
  = process_args (add_arguments Sample.host Sample.busy)
      ["django_dramatiq.setup"; "app.tasks"].
Proof.
  apply printed_command_line_round_trip.
  vm_compute. repeat constructor.
Defined.

(** A pid file with a space in its name is printed like two arguments. *)
Example printed_command_line_ambiguous :
  Py.join " " ["dramatiq"; "--pid-file"; "a b"]
  = Py.join " " ["dramatiq"; "--pid-file"; "a"; "b"].
Proof. reflexivity. Qed.

(** ** What is handed over (lines 154-160) *)

(** X14: [handle] hands over only after the discovery has returned: when
    the discovery raises, nothing is executed and no command line is
    printed.  Otherwise the command line is the last line printed, and the
    same arguments go out on every platform behind position 0, which is the
    bare executable name for [os.execvp] and the resolved path for the
    child started on [win32]. *)
Theorem handoff_arguments (dj : Django) (imp : Importer) (h : Host)
    (o : Options) :
  (∀ out e,
     discover_tasks_modules dj imp = inl (out, e) →
     handle dj imp h o = (out, Raised e))
  ∧ (∀ st,
       discover_tasks_modules dj imp = inr st →
       ∃ rest,
         process_args o (tasks_modules st)
         = (if use_gevent o then "dramatiq-gevent" else "dramatiq") :: rest
         ∧ (handle dj imp h o).1
           = stdout st
             ++ [RunningLine (Py.join " " (process_args o (tasks_modules st)))]
         ∧ (platform h = "win32" →
            ∃ status,
              (handle dj imp h o).2
              = ChildThenExit
                  (_resolve_executable h (executable_name o) :: rest) status)
         ∧ (platform h ≠ "win32" →
            (handle dj imp h o).2
            = Execvp (_resolve_executable h (executable_name o))
                (executable_name o :: rest))).
Proof.
  split.
  - intros out e H. unfold handle. now rewrite H.
  - intros st H. eexists. split; [| split; [| split]].
    + rewrite process_args_parts. unfold executable_name. reflexivity.
    + unfold handle. rewrite H.
      destruct (String.eqb (platform h) "win32"); reflexivity.
    + intros Hwin. eexists.
      rewrite (handle_win32_exits_one dj imp h o st Hwin H).
      rewrite process_args_parts. reflexivity.
    + intros Hposix. apply String.eqb_neq in Hposix.
      rewrite (handle_posix_execs dj imp h o st Hposix H).
      rewrite process_args_parts. reflexivity.
Qed.

(** X14 on the two sample hosts, and where the discovery fails. *)
Lemma handoff_arguments_witness :
  handle (Sample.own_site None) Sample.flat_importer Sample.host
    (add_arguments Sample.host Sample.bare)
  = ([], Raised (ImportError "django_dramatiq.tasks"))
  ∧ (∃ rest,
       (handle (Sample.site None) Sample.flat_importer Sample.host
          (add_arguments Sample.host Sample.bare)).2
       = Execvp "/venv/bin/dramatiq" ("dramatiq" :: rest))
  ∧ (∃ rest status,
       (handle (Sample.site None) Sample.flat_importer Sample.win_host
          (add_arguments Sample.win_host Sample.bare)).2
       = ChildThenExit ("C:\venv\Scripts\dramatiq" :: rest) status).
Proof.
  split; [| split].
  - apply (handoff_arguments (Sample.own_site None) Sample.flat_importer).
    vm_compute. reflexivity.
  - destruct (handoff_arguments (Sample.site None) Sample.flat_importer
                Sample.host (add_arguments Sample.host Sample.bare))
      as (_ & Hok).
    destruct (Hok {| stdout := [DiscoveredLine "app.tasks"];
                     tasks_modules := ["django_dramatiq.setup"; "app.tasks"] |})
      as (rest & _ & _ & _ & Hposix); [vm_compute; reflexivity |].
    exists rest. apply Hposix. discriminate.
  - destruct (handoff_arguments (Sample.site None) Sample.flat_importer
                Sample.win_host (add_arguments Sample.win_host Sample.bare))
      as (_ & Hok).
    destruct (Hok {| stdout := [DiscoveredLine "app.tasks"];
                     tasks_modules := ["django_dramatiq.setup"; "app.tasks"] |})
      as (rest & _ & _ & Hwin & _); [vm_compute; reflexivity |].
    exists rest. apply Hwin. reflexivity.
Defined.

(** ** Edge cases of the configuration *)

(** X15: with [DRAMATIQ_AUTODISCOVER_MODULES] set to the empty sequence the
    only candidates left are the project's own [django_dramatiq.tasks]; if
    moreover no application is named [django_dramatiq], the discovery
    imports nothing, writes nothing and returns the seed alone. *)
Theorem empty_autodiscover_keeps_own_tasks (dj : Django) (imp : Importer) :
  DRAMATIQ_AUTODISCOVER_MODULES dj = Some [] →
  (∀ cand,
     In cand (pair_app_configs dj (task_module_names dj)) →
     name cand.1 = "django_dramatiq" ∧ cand.2 = "tasks"
     ∧ candidate_path cand = "django_dramatiq.tasks")
  ∧ ((∀ conf, In conf (get_app_configs dj) → name conf ≠ "django_dramatiq") →
     discover_tasks_modules dj imp
     = inr {| stdout := []; tasks_modules := ["django_dramatiq.setup"] |}).
Proof.
  intros Hempty.
  assert (Hcands : ∀ cand,
             In cand (pair_app_configs dj (task_module_names dj)) →
             In cand.1 (get_app_configs dj)
             ∧ name cand.1 = "django_dramatiq" ∧ cand.2 = "tasks").
  { intros [conf tm] [Hin Hcase]%in_pair_app_configs. simpl.
    unfold task_module_names in Hcase. rewrite Hempty in Hcase. simpl in Hcase.
    destruct (String.eqb_spec (name conf) "django_dramatiq") as [E | E];
      [tauto | destruct Hcase as [[] _]]. }
  split.
  - intros cand Hin. destruct (Hcands cand Hin) as (_ & Hname & Htm).
    repeat split; try assumption.
    unfold candidate_path. now rewrite Hname, Htm.
  - intros Hnone.
    change (discover_tasks_modules dj imp)
      with (visit_candidates imp (ignored_modules dj)
              (pair_app_configs dj (task_module_names dj))
              {| stdout := []; tasks_modules := ["django_dramatiq.setup"] |}).
    destruct (pair_app_configs dj (task_module_names dj)) as [|cand cands]
      eqn:E; [reflexivity | exfalso].
    destruct (Hcands cand) as (Hin & Hname & _); [now left |].
    exact (Hnone _ Hin Hname).
Qed.

(** X15 with only [app] installed. *)
Lemma empty_autodiscover_keeps_own_tasks_witness :
  discover_tasks_modules
    {| get_app_configs := [Sample.app];
       DRAMATIQ_AUTODISCOVER_MODULES := Some [];
       DRAMATIQ_IGNORED_MODULES := None;
       module_has_submodule := Sample.has_tasks |}
    Sample.importer
  = inr {| stdout := []; tasks_modules := ["django_dramatiq.setup"] |}.
Proof.
  apply empty_autodiscover_keeps_own_tasks; [reflexivity |].
  intros conf [<- | []]. discriminate.
Defined.

(** ** A wildcard pattern, exactly *)

Lemma append_inj_r (p q s : string) : p +:+ s = q +:+ s → p = q.
Proof.
  revert q; induction p as [|c p IH]; intros [|d q] H.
  - reflexivity.
  - apply (f_equal String.length) in H.
    rewrite !append_length in H. simpl in H. lia.
  - apply (f_equal String.length) in H.
    rewrite !append_length in H. simpl in H. lia.
  - rewrite !append_cons in H. injection H as -> H. f_equal. now apply IH.
Qed.

(** X16: a single wildcard pattern ["p.*"] ignores exactly the names that
    consist of [p], a dot and anything, and the pattern string itself; a
    name that merely begins with the letters of [p], such as ["ab.c"] for
    ["a.*"], is not ignored. *)
Theorem wildcard_pattern_matches_exactly :
  (∀ p m,
     is_ignored_module {[p +:+ ".*"]} m = true
     ↔ m = p +:+ ".*" ∨ ∃ rest, m = p +:+ "." +:+ rest)
  ∧ is_ignored_module {["a.*"]} "ab.c" = false.
Proof.
  split; [| vm_compute; reflexivity].
  intros p m. rewrite is_ignored_module_iff. unfold wildcard_hit. split.
  - intros [Hin | (q & rest & Hin & ->)]; apply elem_of_singleton in Hin.
    + now left.
    + right. apply append_inj_r in Hin. subst q. eauto.
  - intros [-> | (rest & ->)].
    + left. now apply elem_of_singleton.
    + right. exists p, rest. split; [now apply elem_of_singleton | reflexivity].
Qed.
